(** * Kerberos ticket renewer ([airflow/security/kerberos.py])

    A shallow embedding of the renewer: principal resolution, the [kinit]
    invocation built from the keytab, the detection of the [X-CACHECONF:]
    marker in the ticket cache, the Kerberos 1.8.1 workaround and the
    [run] loop with its two modes.

    The module talks to the outside through the configuration object, the
    host name, child processes, the ticket cache file, the clock and the
    logger.  Each of these calls is recorded, in order, in the history of the
    process, and the answers of the outside (exit statuses, file contents)
    are read from a [World] that may answer differently at every point of the
    history. *)

From Stdlib Require Import ZArith QArith String Ascii List Bool Lia.
From Stdlib.Strings Require Import Byte.
From Stdlib Require Import DecimalString.
Import ListNotations.

Local Close Scope Q_scope.
Local Open Scope list_scope.
Local Open Scope string_scope.

(* ================================================================== *)
(** ** Python strings and bytes *)

Module Str.

(** [old] occurs in [s] (as a contiguous run of characters). *)
Definition occurs (old s : string) : Prop :=
  exists pre post, s = pre ++ old ++ post.

(** [new] laid before every character of [s] and after the last one:
    what [s.replace("", new)] gives. *)
Fixpoint interleave (new s : string) : string :=
  match s with
  | EmptyString => new
  | String c s' => new ++ String c (interleave new s')
  end.

(** The left-to-right scan of [str.replace] for a non-empty [old]: at a
    position where [old] starts, [new] is written and the characters of
    [old] are passed over ([skip] counts those still to pass); elsewhere the
    character is copied. *)
Fixpoint replace_from (skip : nat) (old new s : string) : string :=
  match s with
  | EmptyString => EmptyString
  | String c s' =>
      match skip with
      | S k => replace_from k old new s'
      | O =>
          if prefix old s
          then new ++ replace_from (String.length old - 1) old new s'
          else String c (replace_from 0 old new s')
      end
  end.

(** [s.replace(old, new)] *)
Definition replace (s old new : string) : string :=
  match old with
  | EmptyString => interleave new s
  | String _ _ => replace_from 0 old new s
  end.

(** [sep.join(parts)] *)
Definition join (sep : string) (parts : list string) : string :=
  String.concat sep parts.

(** [str(n)], also what an f-string and [%s] write for an [int]. *)
Definition of_int (n : Z) : string :=
  NilZero.string_of_int (Z.to_int n).

End Str.

Module Bytes.

Definition bytes := list byte.

Fixpoint startswith (needle hay : bytes) : bool :=
  match needle, hay with
  | [], _ => true
  | _ :: _, [] => false
  | x :: needle', y :: hay' => Byte.eqb x y && startswith needle' hay'
  end.

(** [needle in hay] on [bytes]. *)
Fixpoint contains (needle hay : bytes) : bool :=
  startswith needle hay
  || match hay with
     | [] => false
     | _ :: hay' => contains needle hay'
     end.

(** [needle] occurs in [hay] (as a contiguous run of bytes). *)
Definition occurs (needle hay : bytes) : Prop :=
  exists pre post, hay = (pre ++ needle ++ post)%list.

End Bytes.

(* ================================================================== *)
(** ** The process and its surroundings *)

Inductive KerberosMode := STANDARD | ONE_TIME.

(** [KerberosMode.value] *)
Definition value (mode : KerberosMode) : string :=
  match mode with
  | STANDARD => "standard"
  | ONE_TIME => "one-time"
  end.

Inductive Level := INFO | WARNING | ERROR.

(** What the process does to the outside, with the answer where there is
    one. A logging call is kept as it is made: the format and its
    arguments. *)
Inductive Event :=
| Log (level : Level) (msg : string) (args : list string)
| Popen (cmdv : list string) (status : Z)   (* [subprocess.Popen] and [wait] *)
| Call (cmdv : list string) (status : Z)    (* [subprocess.call] *)
| Open (path : string) (readable : bool)    (* [open(path, "rb")] and [read] *)
| Sleep (seconds : Q).                      (* [time.sleep] *)

Inductive Exception :=
| ConfigurationError (section key : string)
| IOError (path : string)
| ValueError (msg : string)
| OverflowError
| OSError (errno : Z).

(** [airflow.configuration.conf], as far as this module reads it. Each of
    [conf.get], [conf.getint] and [conf.getboolean] is [None] where the call
    raises: the option is not set, or its value is no integer or no
    boolean. *)
Record Configuration := {
  conf_get : string -> string -> option string;
  conf_getint : string -> string -> option Z;
  conf_getboolean : string -> string -> option bool
}.

(** A child process that has terminated. *)
Record Completed := {
  returncode : Z;
  stdout : list string;
  stderr : list string
}.

(** The surroundings of the process. A child process and the ticket cache
    file answer by the history so far, so they may change from one renewal
    to the next; [read_binary] gives [None] when the file cannot be opened
    or read. [shlex_quote] is the library's [shlex.quote]. The platform
    takes a pause of up to [pause_limit] seconds, a length it decides and
    that is a second and a half at least. *)
Record World := {
  conf : Configuration;
  get_hostname : string;
  shlex_quote : string -> string;
  spawn : list Event -> list string -> Completed;
  read_binary : list Event -> string -> option Bytes.bytes;
  pause_limit : list Event -> Q;
  pause_limit_ok : forall h, Qle_bool (3 # 2) (pause_limit h) = true
}.

(** The state of the Python process: the module's global and everything done
    so far, oldest first. *)
Record Process := {
  NEED_KRB181_WORKAROUND : option bool;
  history : list Event
}.

(** The process at import time: [NEED_KRB181_WORKAROUND = None]. *)
Definition initial_process : Process :=
  {| NEED_KRB181_WORKAROUND := None; history := [] |}.

(** How a piece of code ends: it returns a value, [sys.exit] ends the
    process, an exception leaves it, or (for [while True] cut after a number
    of rounds) it is still running. *)
Inductive Outcome (A : Type) :=
| Returned (a : A)
| Exited (status : Z)
| Raised (e : Exception)
| Running.

Arguments Returned {A} a.
Arguments Exited {A} status.
Arguments Raised {A} e.
Arguments Running {A}.

Definition Py (A : Type) : Type := Process -> Outcome A * Process.

Definition ret {A} (a : A) : Py A := fun s => (Returned a, s).

Definition bind {A B} (m : Py A) (k : A -> Py B) : Py B :=
  fun s =>
    match m s with
    | (Returned a, s') => k a s'
    | (Exited n, s') => (Exited n, s')
    | (Raised e, s') => (Raised e, s')
    | (Running, s') => (Running, s')
    end.

Notation "x <- m ;; k" := (bind m (fun x => k))
  (at level 61, m at next level, right associativity).
Notation "m ;; k" := (bind m (fun _ => k))
  (at level 61, right associativity).

Definition raise {A} (e : Exception) : Py A := fun s => (Raised e, s).

(** [sys.exit(status)] *)
Definition sys_exit {A} (status : Z) : Py A := fun s => (Exited status, s).

Definition emit (e : Event) : Py unit :=
  fun s =>
    (Returned tt,
     {| NEED_KRB181_WORKAROUND := NEED_KRB181_WORKAROUND s;
        history := (history s ++ [e])%list |}).

Definition log_info (msg : string) (args : list string) := emit (Log INFO msg args).
Definition log_warning (msg : string) (args : list string) := emit (Log WARNING msg args).
Definition log_error (msg : string) (args : list string) := emit (Log ERROR msg args).

Definition read_global : Py (option bool) :=
  fun s => (Returned (NEED_KRB181_WORKAROUND s), s).

Definition write_global (v : option bool) : Py unit :=
  fun s =>
    (Returned tt, {| NEED_KRB181_WORKAROUND := v; history := history s |}).

(** The lengths [time.sleep] can convert: the library keeps time as a signed
    64-bit number of nanoseconds. *)
Definition PyTime_MIN : Q := (-9223372036854775808 # 1000000000).
Definition PyTime_MAX : Q := (9223372036854775807 # 1000000000).

(** [while True: body], cut after [fuel] rounds. *)
Fixpoint forever (fuel : nat) (body : Py unit) : Py unit :=
  match fuel with
  | O => fun s => (Running, s)
  | S n => body ;; forever n body
  end.

(** The events of [h'] that come after those of [h]. *)
Definition since (h h' : list Event) : list Event := skipn (length h) h'.

Definition is_popen (e : Event) : bool :=
  match e with Popen _ _ => true | _ => false end.
Definition is_call (e : Event) : bool :=
  match e with Call _ _ => true | _ => false end.
Definition is_open (e : Event) : bool :=
  match e with Open _ _ => true | _ => false end.

Definition count (p : Event -> bool) (l : list Event) : nat :=
  length (filter p l).

(* ================================================================== *)
(** ** The module *)

Section Kerberos.

Variable w : World.

(** Modelled from the spec: [conf.get_mandatory_value] of
    [airflow.configuration], which is not part of these sources; it gives
    the configured value and fails with a configuration error when there
    is none. *)
Definition get_mandatory_value (section key : string) : Py string :=
  match conf_get (conf w) section key with
  | Some v => ret v
  | None => raise (ConfigurationError section key)
  end.

(** Modelled from the spec: [conf.get] of [airflow.configuration], which is
    not part of these sources; without a fallback it gives the configured
    value and fails with a configuration error when the option is not
    set. *)
Definition get_value (section key : string) : Py string :=
  match conf_get (conf w) section key with
  | Some v => ret v
  | None => raise (ConfigurationError section key)
  end.

(** Modelled from the spec: [conf.getint] of [airflow.configuration], which
    is not part of these sources; it fails with a configuration error when
    the option is not set or is no integer. *)
Definition get_int (section key : string) : Py Z :=
  match conf_getint (conf w) section key with
  | Some v => ret v
  | None => raise (ConfigurationError section key)
  end.

(** Modelled from the spec: [conf.getboolean] of [airflow.configuration],
    which is not part of these sources; it fails with a configuration error
    when the option is not set or is no boolean. *)
Definition get_boolean (section key : string) : Py bool :=
  match conf_getboolean (conf w) section key with
  | Some v => ret v
  | None => raise (ConfigurationError section key)
  end.

(** [time.sleep(seconds)]. The library refuses a length it cannot convert
    to its signed 64-bit count of nanoseconds ([OverflowError]) and then a
    negative one ([ValueError]); the platform refuses a length whose end its
    clock cannot hold ([OSError], errno 22), which [pause_limit] stands
    for. *)
Definition time_sleep (seconds : Q) : Py unit :=
  fun s =>
    if negb (Qle_bool PyTime_MIN seconds && Qle_bool seconds PyTime_MAX)
    then (Raised OverflowError, s)
    else if negb (Qle_bool 0 seconds)
    then (Raised (ValueError "sleep length must be non-negative"), s)
    else if negb (Qle_bool seconds (pause_limit w (history s)))
    then (Raised (OSError 22), s)
    else emit (Sleep seconds) s.

(** [subprocess.Popen(cmdv, ...)] followed by [wait()]. *)
Definition subprocess_Popen (cmdv : list string) : Py Completed :=
  fun s =>
    let subp := spawn w (history s) cmdv in
    (Returned subp,
     {| NEED_KRB181_WORKAROUND := NEED_KRB181_WORKAROUND s;
        history := (history s ++ [Popen cmdv (returncode subp)])%list |}).

(** [subprocess.call(cmdv, close_fds=True)] *)
Definition subprocess_call (cmdv : list string) : Py Z :=
  fun s =>
    let subp := spawn w (history s) cmdv in
    (Returned (returncode subp),
     {| NEED_KRB181_WORKAROUND := NEED_KRB181_WORKAROUND s;
        history := (history s ++ [Call cmdv (returncode subp)])%list |}).

(** [with open(path, "rb") as file: file.read()] *)
Definition open_rb_read (path : string) : Py Bytes.bytes :=
  fun s =>
    match read_binary w (history s) path with
    | Some data =>
        (Returned data,
         {| NEED_KRB181_WORKAROUND := NEED_KRB181_WORKAROUND s;
            history := (history s ++ [Open path true])%list |})
    | None =>
        (Raised (IOError path),
         {| NEED_KRB181_WORKAROUND := NEED_KRB181_WORKAROUND s;
            history := (history s ++ [Open path false])%list |})
    end.

(** [principal or conf.get_mandatory_value(...).replace("_HOST", get_hostname())]:
    [None] and the empty string are false. *)
Definition get_kerberos_principal (principal : option string) : Py string :=
  match principal with
  | Some (String c p) => ret (String c p)
  | Some EmptyString | None =>
      template <- get_mandatory_value "kerberos" "principal" ;;
      ret (Str.replace template "_HOST" (get_hostname w))
  end.

(** [b"X-CACHECONF:"] *)
Definition marker : Bytes.bytes := list_byte_of_string "X-CACHECONF:".

Definition detect_conf_var : Py bool :=
  ticket_cache <- get_mandatory_value "kerberos" "ccache" ;;
  data <- open_rb_read ticket_cache ;;
  ret (Bytes.contains marker data).

Definition workaround_cmdv (kinit_path ccache : string) : list string :=
  [kinit_path; "-c"; ccache; "-R"].

Definition workaround_error : string :=
  "Couldn't renew kerberos ticket in order to work around Kerberos 1.8.1 issue. Please check that "
  ++ "the ticket for '%s' is still renewable:" ++ String "010" "  $ kinit -f -c %s"
  ++ String "010" "If the 'renew until' date is the "
  ++ "same as the 'valid starting' date, the ticket cannot be renewed. Please check your KDC "
  ++ "configuration, and the ticket renewal policy (maxrenewlife) for the '%s' and `krbtgt' "
  ++ "principals.".

(** In the diagnostic, [principal or conf.get('kerberos', 'principal')] is
    followed by [/] and the host name; the configuration is read only for an
    empty principal, and [conf.get] raises when it holds none. *)
Definition perform_krb181_workaround (principal : string) : Py Z :=
  kinit_path <- get_mandatory_value "kerberos" "kinit_path" ;;
  ccache <- get_mandatory_value "kerberos" "ccache" ;;
  let cmdv := workaround_cmdv kinit_path ccache in
  log_info "Renewing kerberos ticket to work around kerberos 1.8.1: %s"
           [Str.join " " cmdv] ;;
  r <- subprocess_call cmdv ;;
  (if negb (r =? 0)%Z
   then
     given <- match principal with
              | String _ _ => ret principal
              | EmptyString => get_value "kerberos" "principal"
              end ;;
     let principal := given ++ "/" ++ get_hostname w in
     ccache <- get_value "kerberos" "ccache" ;;
     log_error workaround_error [principal; ccache; principal]
   else ret tt) ;;
  ret r.

Definition renewal_cmdv (kinit_path forwardable include_ip renewal_lifetime
                           keytab ccache cmd_principal : string) : list string :=
  [kinit_path; forwardable; include_ip; "-r"; renewal_lifetime;
   "-k"; "-t"; keytab; "-c"; ccache; cmd_principal].

Definition reinit_error : string :=
  "Couldn't reinit from keytab! `kinit` exited with %s." ++ String "010" "%s"
  ++ String "010" "%s".

Definition renew_from_kt (principal : option string) (keytab : string)
           (exit_on_fail : bool) : Py Z :=
  reinit_frequency <- get_int "kerberos" "reinit_frequency" ;;
  let renewal_lifetime := Str.of_int reinit_frequency ++ "m" in
  cmd_principal <- get_kerberos_principal principal ;;
  enabled <- get_boolean "kerberos" "forwardable" ;;
  let forwardable := if enabled then "-f" else "-F" in
  enabled <- get_boolean "kerberos" "include_ip" ;;
  let include_ip := if enabled then "-a" else "-A" in
  kinit_path <- get_mandatory_value "kerberos" "kinit_path" ;;
  ccache <- get_mandatory_value "kerberos" "ccache" ;;
  let cmdv := renewal_cmdv kinit_path forwardable include_ip renewal_lifetime
                           keytab ccache cmd_principal in
  log_info "Re-initialising kerberos from keytab: %s"
           [Str.join " " (map (shlex_quote w) cmdv)] ;;
  subp <- subprocess_Popen cmdv ;;
  if negb (returncode subp =? 0)%Z
  then
    log_error reinit_error
              [Str.of_int (returncode subp);
               Str.join (String "010" "") (stdout subp);
               Str.join (String "010" "") (stderr subp)] ;;
    if exit_on_fail
    then sys_exit (returncode subp)
    else ret (returncode subp)
  else
    need <- read_global ;;
    match need with
    | None => b <- detect_conf_var ;; write_global (Some b)
    | Some _ => ret tt
    end ;;
    need <- read_global ;;
    match need with
    | Some true =>
        time_sleep (3 # 2) ;;
        r <- perform_krb181_workaround cmd_principal ;;
        if exit_on_fail && negb (r =? 0)%Z
        then sys_exit r
        else ret r
    | _ => ret 0%Z
    end.

(** One round of the [while True] of [run]. *)
Definition standard_round (principal : option string) (keytab : string) : Py unit :=
  renew_from_kt principal keytab true ;;
  reinit_frequency <- get_int "kerberos" "reinit_frequency" ;;
  time_sleep (inject_Z reinit_frequency).

(** [run]; [fuel] bounds the rounds of the [while True] of the standard
    mode. *)
Definition run (fuel : nat) (principal : option string) (keytab : string)
           (mode : KerberosMode) : Py unit :=
  match keytab with
  | EmptyString =>
      log_warning "Keytab renewer not starting, no keytab configured" [] ;;
      sys_exit 0%Z
  | String _ _ =>
      log_info "Using airflow kerberos with mode: %s" [value mode] ;;
      match mode with
      | STANDARD => forever fuel (standard_round principal keytab)
      | ONE_TIME => renew_from_kt principal keytab true ;; ret tt
      end
  end.

End Kerberos.

(* ================================================================== *)
(** ** The parts of a renewal, named *)

(** What a renewal reads from the configuration, with the principal
    resolved. *)
Record Settings := {
  set_frequency : Z;
  set_principal : string;
  set_forwardable : bool;
  set_include_ip : bool;
  set_kinit_path : string;
  set_ccache : string
}.

Section Parts.

Variable w : World.

(** Every read of a renewal succeeds, with these values. *)
Definition Configured (principal : option string) (c : Settings) : Prop :=
  conf_getint (conf w) "kerberos" "reinit_frequency" = Some (set_frequency c)
  /\ (forall s, get_kerberos_principal w principal s = (Returned (set_principal c), s))
  /\ conf_getboolean (conf w) "kerberos" "forwardable" = Some (set_forwardable c)
  /\ conf_getboolean (conf w) "kerberos" "include_ip" = Some (set_include_ip c)
  /\ conf_get (conf w) "kerberos" "kinit_path" = Some (set_kinit_path c)
  /\ conf_get (conf w) "kerberos" "ccache" = Some (set_ccache c).

(** Is the principal given, that is neither [None] nor empty? *)
Definition principal_given (principal : option string) : bool :=
  match principal with
  | Some (String _ _) => true
  | _ => false
  end.

(** The first read of [renew_from_kt] that fails, in the order of lines 78
    to 101: [reinit_frequency], the principal when none is given,
    [forwardable], [include_ip], [kinit_path], [ccache]. *)
Definition first_missing (principal : option string) : option string :=
  match conf_getint (conf w) "kerberos" "reinit_frequency" with
  | None => Some "reinit_frequency"
  | Some _ =>
  if negb (principal_given principal
           || match conf_get (conf w) "kerberos" "principal" with
              | Some _ => true
              | None => false
              end)
  then Some "principal"
  else
  match conf_getboolean (conf w) "kerberos" "forwardable" with
  | None => Some "forwardable"
  | Some _ =>
  match conf_getboolean (conf w) "kerberos" "include_ip" with
  | None => Some "include_ip"
  | Some _ =>
  match conf_get (conf w) "kerberos" "kinit_path" with
  | None => Some "kinit_path"
  | Some _ =>
  match conf_get (conf w) "kerberos" "ccache" with
  | None => Some "ccache"
  | Some _ => None
  end end end end end.

(** The command line of [kinit] for the renewal from the keytab, from the
    values read. *)
Definition kinit_line (c : Settings) (keytab : string) : list string :=
  renewal_cmdv (set_kinit_path c)
    (if set_forwardable c then "-f" else "-F")
    (if set_include_ip c then "-a" else "-A")
    (Str.of_int (set_frequency c) ++ "m")
    keytab (set_ccache c) (set_principal c).

Definition reinit_log (cmdv : list string) : Event :=
  Log INFO "Re-initialising kerberos from keytab: %s"
      [Str.join " " (map (shlex_quote w) cmdv)].

Definition reinit_failure_log (subp : Completed) : Event :=
  Log ERROR reinit_error
      [Str.of_int (returncode subp);
       Str.join (String "010" "") (stdout subp);
       Str.join (String "010" "") (stderr subp)].

Definition workaround_log (kinit_path ccache : string) : Event :=
  Log INFO "Renewing kerberos ticket to work around kerberos 1.8.1: %s"
      [Str.join " " (workaround_cmdv kinit_path ccache)].

(** [principal or conf.get('kerberos', 'principal')]: [None] where
    [conf.get] is called and raises. *)
Definition given_or_configured (principal : string) : option string :=
  match principal with
  | String _ _ => Some principal
  | EmptyString => conf_get (conf w) "kerberos" "principal"
  end.

(** The diagnostic of a workaround that failed, for the principal [given]
    (or configured) and the ticket cache [ccache]. *)
Definition workaround_failure_log (given ccache : string) : Event :=
  Log ERROR workaround_error
      [given ++ "/" ++ get_hostname w; ccache; given ++ "/" ++ get_hostname w].

(** Line 210 of [run]: the pause between two renewals. *)
Definition pause : Py unit :=
  reinit_frequency <- get_int w "kerberos" "reinit_frequency" ;;
  time_sleep w (inject_Z reinit_frequency).

(** Lines 130 to 138 of [renew_from_kt] when the global is [True]: the
    pause, the workaround and what is made of its exit status. *)
Definition workaround_cycle (cmd_principal : string) (exit_on_fail : bool) : Py Z :=
  time_sleep w (3 # 2) ;;
  r <- perform_krb181_workaround w cmd_principal ;;
  if exit_on_fail && negb (r =? 0)%Z
  then sys_exit r
  else ret r.

(** [renew_from_kt] from line 127 on: what follows a [kinit] that exited
    with status 0. *)
Definition after_reinit (cmd_principal : string) (exit_on_fail : bool) : Py Z :=
  need <- read_global ;;
  match need with
  | None => b <- detect_conf_var w ;; write_global (Some b)
  | Some _ => ret tt
  end ;;
  need <- read_global ;;
  match need with
  | Some true => workaround_cycle cmd_principal exit_on_fail
  | _ => ret 0%Z
  end.

End Parts.

(** The process [s] with [delta] done after it and the global set to [g]. *)
Definition advance (s : Process) (g : option bool) (delta : list Event) : Process :=
  {| NEED_KRB181_WORKAROUND := g; history := (history s ++ delta)%list |}.

(** What the workaround adds to the history when it exits with [r], after
    the pause that precedes it; [given] is the principal its diagnostic
    shows. *)
Definition workaround_events (w : World) (kinit_path ccache given : string)
           (r : Z) : list Event :=
  Sleep (3 # 2) :: workaround_log kinit_path ccache
    :: Call (workaround_cmdv kinit_path ccache) r
    :: (if (r =? 0)%Z then [] else [workaround_failure_log w given ccache]).

(** What [renew_from_kt] makes of the exit status of the workaround. *)
Definition workaround_outcome (exit_on_fail : bool) (r : Z) : Outcome Z :=
  if exit_on_fail && negb (r =? 0)%Z then Exited r else Returned r.

(** The ways through [renew_from_kt] after a [kinit] that exited with 0,
    from the process [s] and with [kinit_path] and [ccache] configured as
    [kp] and [cc]: the outcome, the global afterwards and what was done. *)
Inductive AfterReinit (w : World) (kp cc given : string) (exit_on_fail : bool)
          (s : Process) : Outcome Z -> option bool -> list Event -> Prop :=
| after_not_required :
    NEED_KRB181_WORKAROUND s = Some false ->
    AfterReinit w kp cc given exit_on_fail s (Returned 0%Z) (Some false) []
| after_required r :
    NEED_KRB181_WORKAROUND s = Some true ->
    AfterReinit w kp cc given exit_on_fail s
      (workaround_outcome exit_on_fail r) (Some true)
      (workaround_events w kp cc given r)
| after_unreadable :
    NEED_KRB181_WORKAROUND s = None ->
    read_binary w (history s) cc = None ->
    AfterReinit w kp cc given exit_on_fail s
      (Raised (IOError cc)) None [Open cc false]
| after_detected_absent data :
    NEED_KRB181_WORKAROUND s = None ->
    read_binary w (history s) cc = Some data ->
    Bytes.contains marker data = false ->
    AfterReinit w kp cc given exit_on_fail s
      (Returned 0%Z) (Some false) [Open cc true]
| after_detected_present data r :
    NEED_KRB181_WORKAROUND s = None ->
    read_binary w (history s) cc = Some data ->
    Bytes.contains marker data = true ->
    AfterReinit w kp cc given exit_on_fail s
      (workaround_outcome exit_on_fail r) (Some true)
      (Open cc true :: workaround_events w kp cc given r).

(** The ways through [renew_from_kt] from the process [s]: the outcome, the
    global afterwards and what was done. *)
Inductive Renewal (w : World) (principal : option string) (keytab : string)
          (exit_on_fail : bool) (s : Process)
  : Outcome Z -> option bool -> list Event -> Prop :=
| renewal_unconfigured key :
    first_missing w principal = Some key ->
    Renewal w principal keytab exit_on_fail s
      (Raised (ConfigurationError "kerberos" key)) (NEED_KRB181_WORKAROUND s) []
| renewal_tool_failure c subp :
    Configured w principal c ->
    returncode subp <> 0%Z ->
    Renewal w principal keytab exit_on_fail s
      (if exit_on_fail then Exited (returncode subp) else Returned (returncode subp))
      (NEED_KRB181_WORKAROUND s)
      [reinit_log w (kinit_line c keytab);
       Popen (kinit_line c keytab) (returncode subp);
       reinit_failure_log subp]
| renewal_tool_success c given out g delta :
    Configured w principal c ->
    given_or_configured w (set_principal c) = Some given ->
    AfterReinit w (set_kinit_path c) (set_ccache c) given exit_on_fail
      (advance s (NEED_KRB181_WORKAROUND s)
               [reinit_log w (kinit_line c keytab);
                Popen (kinit_line c keytab) 0%Z])
      out g delta ->
    Renewal w principal keytab exit_on_fail s out g
      (reinit_log w (kinit_line c keytab)
         :: Popen (kinit_line c keytab) 0%Z :: delta).

(** [n] rounds of the standard mode lead from one process to another: each
    round is one [renew_from_kt] that returns, then the pause. *)
Inductive Cycles (w : World) (principal : option string) (keytab : string)
  : nat -> Process -> Process -> Prop :=
| cycles_done s : Cycles w principal keytab 0 s s
| cycles_round n s v s1 s2 s3 :
    renew_from_kt w principal keytab true s = (Returned v, s1) ->
    pause w s1 = (Returned tt, s2) ->
    Cycles w principal keytab n s2 s3 ->
    Cycles w principal keytab (S n) s s3.

(** Has [kinit] been run from the keytab and exited with 0? *)
Definition reinit_succeeded (e : Event) : bool :=
  match e with Popen _ 0%Z => true | _ => false end.

(** Is this the pause of [reinit_frequency] seconds of the standard mode? *)
Definition is_interval_sleep (w : World) (e : Event) : bool :=
  match e, conf_getint (conf w) "kerberos" "reinit_frequency" with
  | Sleep d, Some n => Qeq_bool d (inject_Z n)
  | _, _ => false
  end.

(** No two renewals from the keytab without the pause of the standard mode in
    between: [armed] tells whether a renewal may come next. *)
Fixpoint well_spaced (w : World) (armed : bool) (l : list Event) : bool :=
  match l with
  | [] => true
  | e :: l' =>
      if is_popen e then armed && well_spaced w false l'
      else if is_interval_sleep w e then well_spaced w true l'
      else well_spaced w armed l'
  end.

(** Neither a renewal from the keytab nor the pause of the standard mode. *)
Definition quiet (w : World) (l : list Event) : bool :=
  forallb (fun e => negb (is_popen e) && negb (is_interval_sleep w e)) l.

(** The outcome of a statement whose value is dropped. *)
Definition discard {A} (out : Outcome A) : Outcome unit :=
  match out with
  | Returned _ => Returned tt
  | Exited n => Exited n
  | Raised e => Raised e
  | Running => Running
  end.

(* ================================================================== *)
(** ** Concrete surroundings, for running the module *)

Definition demo_conf : Configuration :=
  {| conf_get := fun section key =>
       if negb (section =? "kerberos") then None
       else if key =? "principal" then Some "airflow/_HOST@EXAMPLE.COM"
       else if key =? "kinit_path" then Some "kinit"
       else if key =? "ccache" then Some "/tmp/airflow_krb5_ccache"
       else None;
     conf_getint := fun _ _ => Some 3600%Z;
     conf_getboolean := fun _ key => Some (key =? "forwardable") |}.

(** The longest pause the demonstration platform takes, in seconds. *)
Definition demo_limit : Q := 9223372034 # 1.

(** A world whose child processes exit with [status cmdv] and whose ticket
    cache holds [cache] ([None]: unreadable), whatever happened before. *)
Definition demo_world (status : list string -> Z) (cache : option Bytes.bytes) : World :=
  {| conf := demo_conf;
     get_hostname := "node1";
     shlex_quote := fun s => s;
     spawn := fun _ cmdv => {| returncode := status cmdv; stdout := ["out"]; stderr := ["err"] |};
     read_binary := fun _ _ => cache;
     pause_limit := fun _ => demo_limit;
     pause_limit_ok := fun _ => eq_refl |}.

Definition cache_with_marker : Bytes.bytes :=
  list_byte_of_string "head X-CACHECONF: tail".
Definition cache_without_marker : Bytes.bytes :=
  list_byte_of_string "head X-CACHECONF tail".

(** [kinit] exits with 1: with [exit_on_fail] the process exits with 1. *)
Definition failed_reinit : Outcome Z * Process :=
  renew_from_kt (demo_world (fun _ => 1%Z) None) None "airflow.keytab" true
                initial_process.

(** Two renewals in a row with a ticket cache that holds the marker. *)
Definition marked_world : World := demo_world (fun _ => 0%Z) (Some cache_with_marker).
Definition first_renewal : Outcome Z * Process :=
  renew_from_kt marked_world None "airflow.keytab" true initial_process.
Definition second_renewal : Outcome Z * Process :=
  renew_from_kt marked_world None "airflow.keytab" true (snd first_renewal).

(** A renewal with a ticket cache that cannot be read. *)
Definition unreadable_world : World := demo_world (fun _ => 0%Z) None.
Definition unreadable_renewal : Outcome Z * Process :=
  renew_from_kt unreadable_world None "airflow.keytab" true initial_process.

(** Spec wording of the principal shown by the diagnostic of the workaround:
    the principal that was given, unchanged, and the configured principal
    followed by [/] and the host name only when none was given. *)
Definition shown_principal_spec (w : World) (principal configured : string) : string :=
  match principal with
  | String _ _ => principal
  | EmptyString => configured ++ "/" ++ get_hostname w
  end.

(** The workaround exits with 1 for the principal [airflow]. *)
Definition failing_world : World := demo_world (fun _ => 1%Z) None.
Definition failing_workaround : Outcome Z * Process :=
  perform_krb181_workaround failing_world "airflow" initial_process.

(** The process once [run] has found a keytab and logged its mode. *)
Definition started (s : Process) (mode : KerberosMode) : Process :=
  advance s (NEED_KRB181_WORKAROUND s)
          [Log INFO "Using airflow kerberos with mode: %s" [value mode]].

(** The one-time mode with a [kinit] that exits with 1. *)
Definition failed_one_time : Outcome unit * Process :=
  run failing_world 0 None "airflow.keytab" ONE_TIME initial_process.

(** The workaround exits with 3 after a [kinit] from the keytab that exited
    with 0; the caller asked for the status back. *)
Definition workaround_fails_world : World :=
  demo_world (fun cmdv => if existsb (String.eqb "-R") cmdv then 3%Z else 0%Z)
             (Some cache_with_marker).
Definition tolerant_renewal : Outcome Z * Process :=
  renew_from_kt workaround_fails_world (Some "airflow") "airflow.keytab" false
                initial_process.

(** A configuration with no [kinit_path]. *)
Definition no_kinit_world : World :=
  {| conf := {| conf_get := fun section key =>
                  if key =? "kinit_path" then None else conf_get demo_conf section key;
                conf_getint := conf_getint demo_conf;
                conf_getboolean := conf_getboolean demo_conf |};
     get_hostname := "node1";
     shlex_quote := fun s => s;
     spawn := spawn marked_world;
     read_binary := read_binary marked_world;
     pause_limit := fun _ => demo_limit;
     pause_limit_ok := fun _ => eq_refl |}.

(** The ways through [fuel] rounds of the loop of the standard mode, from the
    process [s]: the outcome, the global afterwards and what was done. A
    round whose renewal returns and whose pause is taken is followed by the
    rest of the loop; a renewal that does not return, or a pause that is
    refused, ends it. *)
Inductive StandardLoop (w : World) (principal : option string) (keytab : string)
  : nat -> Process -> Outcome unit -> option bool -> list Event -> Prop :=
| loop_cut s :
    StandardLoop w principal keytab 0 s Running (NEED_KRB181_WORKAROUND s) []
| loop_round n s v g1 d1 m out g delta :
    Renewal w principal keytab true s (Returned v) g1 d1 ->
    conf_getint (conf w) "kerberos" "reinit_frequency" = Some m ->
    pause w (advance s g1 d1)
    = (Returned tt, advance s g1 (d1 ++ [Sleep (inject_Z m)])) ->
    StandardLoop w principal keytab n
                 (advance s g1 (d1 ++ [Sleep (inject_Z m)])) out g delta ->
    StandardLoop w principal keytab (S n) s out g
                 ((d1 ++ [Sleep (inject_Z m)]) ++ delta)
| loop_renewal_ended n s out1 g1 d1 :
    Renewal w principal keytab true s out1 g1 d1 ->
    (forall v, out1 <> Returned v) ->
    StandardLoop w principal keytab (S n) s (discard out1) g1 d1
| loop_pause_refused n s v g1 d1 e :
    Renewal w principal keytab true s (Returned v) g1 d1 ->
    pause w (advance s g1 d1) = (Raised e, advance s g1 d1) ->
    StandardLoop w principal keytab (S n) s (Raised e) g1 d1.

(** The ways through [run]. *)
Inductive Run (w : World) (principal : option string)
  : string -> KerberosMode -> nat -> Process
    -> Outcome unit -> option bool -> list Event -> Prop :=
| run_no_keytab mode fuel s :
    Run w principal "" mode fuel s (Exited 0%Z) (NEED_KRB181_WORKAROUND s)
        [Log WARNING "Keytab renewer not starting, no keytab configured" []]
| run_one_renewal c k fuel s out g delta :
    Renewal w principal (String c k) true (started s ONE_TIME) out g delta ->
    Run w principal (String c k) ONE_TIME fuel s (discard out) g
        (Log INFO "Using airflow kerberos with mode: %s" [value ONE_TIME] :: delta)
| run_loop c k fuel s out g delta :
    StandardLoop w principal (String c k) fuel (started s STANDARD) out g delta ->
    Run w principal (String c k) STANDARD fuel s out g
        (Log INFO "Using airflow kerberos with mode: %s" [value STANDARD] :: delta).

(** A configuration with a negative [reinit_frequency]. *)
Definition hasty_world : World :=
  {| conf := {| conf_get := conf_get demo_conf;
                conf_getint := fun _ _ => Some (-5)%Z;
                conf_getboolean := conf_getboolean demo_conf |};
     get_hostname := "node1";
     shlex_quote := fun s => s;
     spawn := spawn marked_world;
     read_binary := read_binary marked_world;
     pause_limit := fun _ => demo_limit;
     pause_limit_ok := fun _ => eq_refl |}.

(** The standard mode where [kinit] exits with 0 in the first round and with
    7 in the second. *)
Definition second_round_fails_world : World :=
  {| conf := demo_conf;
     get_hostname := "node1";
     shlex_quote := fun s => s;
     spawn := fun h _ =>
       {| returncode := if existsb (is_interval_sleep marked_world) h then 7%Z else 0%Z;
          stdout := []; stderr := [] |};
     read_binary := fun _ _ => Some cache_without_marker;
     pause_limit := fun _ => demo_limit;
     pause_limit_ok := fun _ => eq_refl |}.
Definition second_round_fails : Outcome unit * Process :=
  run second_round_fails_world 5 None "airflow.keytab" STANDARD initial_process.

(** The standard mode with a negative [reinit_frequency], cut after four
    rounds. *)
Definition hasty_run : Outcome unit * Process :=
  run hasty_world 4 None "airflow.keytab" STANDARD initial_process.

(** The standard mode with a negative [reinit_frequency]. *)
Definition hasty_first_renewal : Outcome Z * Process :=
  renew_from_kt hasty_world None "airflow.keytab" true
                (started initial_process STANDARD).

(** Three rounds of the standard mode with a ticket cache that holds the
    marker. *)
Definition three_rounds : Outcome unit * Process :=
  run marked_world 3 None "airflow.keytab" STANDARD initial_process.

(* ================================================================== *)
(** ** Searching bytes *)

Module BytesFacts.
Import Bytes.

Lemma startswith_iff (needle hay : bytes) :
  startswith needle hay = true <-> exists post, hay = (needle ++ post)%list.
Proof.
  revert hay; induction needle as [|x needle IH]; intros hay; simpl.
  - split; [intros _; now exists hay | reflexivity].
  - destruct hay as [|y hay].
    + split; [discriminate | intros [post H]; discriminate H].
    + rewrite andb_true_iff, IH. split.
      * intros [Hxy [post ->]]. apply byte_dec_bl in Hxy. subst y. now exists post.
      * intros [post H]. injection H as -> ->.
        split; [now apply byte_dec_lb | now exists post].
Qed.

Lemma contains_iff (needle hay : bytes) :
  contains needle hay = true <-> occurs needle hay.
Proof.
  unfold occurs. induction hay as [|y hay IH].
  - simpl. rewrite orb_false_r, startswith_iff. split.
    + intros [post H]. now exists [], post.
    + intros [pre [post H]]. destruct pre as [|p pre]; [now exists post | discriminate H].
  - cbn [contains]. rewrite orb_true_iff, startswith_iff, IH. split.
    + intros [[post H] | [pre [post H]]].
      * now exists [], post.
      * exists (y :: pre), post. simpl. now rewrite H.
    + intros [pre [post H]]. destruct pre as [|p pre].
      * left. now exists post.
      * right. injection H as _ H. now exists pre, post.
Qed.

End BytesFacts.

(* ================================================================== *)
(** ** Running the monad *)

Lemma bind_returned {A B} (m : Py A) (k : A -> Py B) s a s' :
  m s = (Returned a, s') -> bind m k s = k a s'.
Proof. unfold bind. now intros ->. Qed.

Lemma bind_raised {A B} (m : Py A) (k : A -> Py B) s e s' :
  m s = (Raised e, s') -> bind m k s = (Raised e, s').
Proof. unfold bind. now intros ->. Qed.

Lemma since_app (h d : list Event) : since h (h ++ d)%list = d.
Proof.
  unfold since. induction h as [|e h IH]; simpl; [reflexivity | exact IH].
Qed.

Lemma since_refl (h : list Event) : since h h = [].
Proof.
  rewrite <- (app_nil_r h) at 2. apply since_app.
Qed.

(** Unfolds the effects of straight-line code. *)
Ltac step :=
  unfold bind, ret, raise, sys_exit, log_info, log_warning, log_error, emit,
    read_global, write_global, get_mandatory_value, subprocess_Popen,
    subprocess_call, open_rb_read; simpl.

(* ================================================================== *)
(** ** [detect_conf_var] *)

(** C4: whatever the ticket cache file holds, [detect_conf_var] returns
    [True] exactly when the bytes [X-CACHECONF:] occur somewhere in what was
    read; the file is read once and the global is left alone. *)
Theorem detect_conf_var_iff_marker (w : World) (s : Process) (path : string)
        (data : Bytes.bytes) :
  conf_get (conf w) "kerberos" "ccache" = Some path ->
  read_binary w (history s) path = Some data ->
  exists b,
    detect_conf_var w s =
      (Returned b,
       {| NEED_KRB181_WORKAROUND := NEED_KRB181_WORKAROUND s;
          history := (history s ++ [Open path true])%list |})
    /\ (b = true <-> Bytes.occurs (list_byte_of_string "X-CACHECONF:") data).
Proof.
  intros Hcc Hread. exists (Bytes.contains marker data). split.
  - unfold detect_conf_var. step. rewrite Hcc. simpl. now rewrite Hread.
  - apply BytesFacts.contains_iff.
Qed.

Lemma detect_conf_var_iff_marker_witness :
  exists b,
    detect_conf_var (demo_world (fun _ => 0%Z) (Some cache_with_marker)) initial_process =
      (Returned b,
       {| NEED_KRB181_WORKAROUND := None;
          history := [Open "/tmp/airflow_krb5_ccache" true] |})
    /\ (b = true <->
        Bytes.occurs (list_byte_of_string "X-CACHECONF:") cache_with_marker).
Proof.
  apply (detect_conf_var_iff_marker
           (demo_world (fun _ => 0%Z) (Some cache_with_marker)) initial_process
           "/tmp/airflow_krb5_ccache" cache_with_marker); reflexivity.
Defined.

(** The marker at the start, in the middle and at the end of the file, a file
    without it and the empty file. *)
Example detect_conf_var_samples :
  map (Bytes.contains marker)
      [list_byte_of_string "X-CACHECONF: then the tickets";
       list_byte_of_string "head X-CACHECONF: tail";
       list_byte_of_string "tickets first X-CACHECONF:";
       list_byte_of_string "X-CACHECONF without the colon";
       []]
  = [true; true; true; false; false].
Proof. reflexivity. Qed.

(* ================================================================== *)
(** ** The paths of a renewal *)

Lemma advance_nil s : advance s (NEED_KRB181_WORKAROUND s) [] = s.
Proof. destruct s as [g h]. unfold advance. simpl. now rewrite app_nil_r. Qed.

Lemma advance_advance s g d g' d' :
  advance (advance s g d) g' d' = advance s g' (d ++ d')%list.
Proof. unfold advance. simpl. now rewrite app_assoc. Qed.

Lemma history_advance s g d : history (advance s g d) = (history s ++ d)%list.
Proof. reflexivity. Qed.

Lemma need_advance s g d : NEED_KRB181_WORKAROUND (advance s g d) = g.
Proof. reflexivity. Qed.

Lemma since_advance s g d : since (history s) (history (advance s g d)) = d.
Proof. apply since_app. Qed.

Lemma time_sleep_accepted (w : World) (d : Q) (s : Process) :
  Qle_bool PyTime_MIN d = true ->
  Qle_bool d PyTime_MAX = true ->
  Qle_bool 0 d = true ->
  Qle_bool d (pause_limit w (history s)) = true ->
  time_sleep w d s = emit (Sleep d) s.
Proof.
  intros H1 H2 H3 H4. unfold time_sleep. now rewrite H1, H2, H3, H4.
Qed.

(** The pause before the workaround is always taken. *)
Lemma time_sleep_workaround (w : World) (s : Process) :
  time_sleep w (3 # 2) s = emit (Sleep (3 # 2)) s.
Proof.
  apply time_sleep_accepted; try reflexivity. apply pause_limit_ok.
Qed.

(** [time.sleep] either pauses or raises, and does nothing else. *)
Lemma time_sleep_cases (w : World) (d : Q) (s : Process) :
  time_sleep w d s = (Returned tt, advance s (NEED_KRB181_WORKAROUND s) [Sleep d])
  \/ exists e, time_sleep w d s = (Raised e, s).
Proof.
  unfold time_sleep.
  destruct (negb (Qle_bool PyTime_MIN d && Qle_bool d PyTime_MAX)); [right; eauto|].
  destruct (negb (Qle_bool 0 d)); [right; eauto|].
  destruct (negb (Qle_bool d (pause_limit w (history s)))); [right; eauto|].
  now left.
Qed.

Section Paths.

Variable w : World.

(** Principal resolution reads the configuration only. *)
Lemma get_kerberos_principal_cases principal s :
  (exists p, get_kerberos_principal w principal s = (Returned p, s))
  \/ get_kerberos_principal w principal s
     = (Raised (ConfigurationError "kerberos" "principal"), s).
Proof.
  unfold get_kerberos_principal, get_mandatory_value.
  destruct principal as [[|c p]|]; step;
    try destruct (conf_get (conf w) "kerberos" "principal"); step; eauto.
Qed.

Lemma get_kerberos_principal_pure principal s out s0 :
  get_kerberos_principal w principal s = (out, s0) ->
  s0 = s /\ forall s', get_kerberos_principal w principal s' = (out, s').
Proof.
  unfold get_kerberos_principal, get_mandatory_value.
  destruct principal as [[|c p]|]; step;
    try destruct (conf_get (conf w) "kerberos" "principal"); step;
    intros H; injection H as <- <-; split; reflexivity.
Qed.

Lemma get_kerberos_principal_missing principal s :
  get_kerberos_principal w principal s
  = (Raised (ConfigurationError "kerberos" "principal"), s)
  <-> principal_given principal = false
      /\ conf_get (conf w) "kerberos" "principal" = None.
Proof.
  unfold get_kerberos_principal, get_mandatory_value.
  destruct principal as [[|c p]|]; step;
    try destruct (conf_get (conf w) "kerberos" "principal"); step;
    (split; [intros H; try discriminate H; auto
            | intros [H1 H2]; try discriminate H1; try discriminate H2; auto]).
Qed.

(** The principal resolved for [kinit] is one the diagnostic of the
    workaround can show. *)
Lemma resolved_principal_shown principal s p :
  get_kerberos_principal w principal s = (Returned p, s) ->
  exists given, given_or_configured w p = Some given.
Proof.
  unfold get_kerberos_principal, get_mandatory_value, given_or_configured.
  destruct principal as [[|c q]|]; step;
    try (destruct (conf_get (conf w) "kerberos" "principal") as [t|]; step);
    intros H; try discriminate H; injection H as <-; eauto;
    unfold Str.replace; destruct (Str.replace_from 0 "_HOST" (get_hostname w) t); eauto.
Qed.

Lemma configured_shown principal c :
  Configured w principal c ->
  exists given, given_or_configured w (set_principal c) = Some given.
Proof.
  intros (_ & Hp & _).
  exact (resolved_principal_shown principal initial_process _ (Hp initial_process)).
Qed.

Lemma configured_unique principal c c' :
  Configured w principal c -> Configured w principal c' -> c = c'.
Proof.
  intros (H1 & H2 & H3 & H4 & H5 & H6) (H1' & H2' & H3' & H4' & H5' & H6').
  specialize (H2 initial_process). specialize (H2' initial_process).
  destruct c, c'; simpl in *. congruence.
Qed.

Lemma renew_from_kt_unfold principal keytab exit_on_fail :
  renew_from_kt w principal keytab exit_on_fail =
    (reinit_frequency <- get_int w "kerberos" "reinit_frequency" ;;
     cmd_principal <- get_kerberos_principal w principal ;;
     forwardable <- get_boolean w "kerberos" "forwardable" ;;
     include_ip <- get_boolean w "kerberos" "include_ip" ;;
     kinit_path <- get_mandatory_value w "kerberos" "kinit_path" ;;
     ccache <- get_mandatory_value w "kerberos" "ccache" ;;
     let cmdv := kinit_line {| set_frequency := reinit_frequency;
                               set_principal := cmd_principal;
                               set_forwardable := forwardable;
                               set_include_ip := include_ip;
                               set_kinit_path := kinit_path;
                               set_ccache := ccache |} keytab in
     emit (reinit_log w cmdv) ;;
     subp <- subprocess_Popen w cmdv ;;
     if negb (returncode subp =? 0)%Z
     then
       emit (reinit_failure_log subp) ;;
       if exit_on_fail then sys_exit (returncode subp) else ret (returncode subp)
     else after_reinit w cmd_principal exit_on_fail).
Proof. reflexivity. Qed.

(** The reads of a renewal either all succeed or one of them is the first
    to fail. *)
Lemma first_missing_none principal :
  first_missing w principal = None <-> exists c, Configured w principal c.
Proof.
  unfold first_missing, Configured. split.
  - destruct (conf_getint (conf w) "kerberos" "reinit_frequency") as [n|] eqn:Hn;
      [|discriminate].
    destruct (get_kerberos_principal_cases principal initial_process) as [[p Hp] | Hp].
    + destruct (get_kerberos_principal_pure _ _ _ _ Hp) as [_ Hall].
      destruct (principal_given principal || _); [|
        destruct (conf_getboolean (conf w) "kerberos" "forwardable") as [fw|] eqn:Hfw;
          discriminate].
      destruct (conf_getboolean (conf w) "kerberos" "forwardable") as [fw|] eqn:Hfw;
        [|discriminate].
      destruct (conf_getboolean (conf w) "kerberos" "include_ip") as [ip|] eqn:Hip;
        [|discriminate].
      destruct (conf_get (conf w) "kerberos" "kinit_path") as [kp|] eqn:Hkp;
        [|discriminate].
      destruct (conf_get (conf w) "kerberos" "ccache") as [cc|] eqn:Hcc;
        [|discriminate].
      intros _.
      exists {| set_frequency := n; set_principal := p; set_forwardable := fw;
                set_include_ip := ip; set_kinit_path := kp; set_ccache := cc |}.
      simpl. repeat split; auto.
    + apply get_kerberos_principal_missing in Hp. destruct Hp as [Hg Hc].
      rewrite Hg, Hc. discriminate.
  - intros [c (H1 & H2 & H3 & H4 & H5 & H6)].
    rewrite H1, H3, H4, H5, H6.
    destruct (principal_given principal) eqn:Hg; [reflexivity|].
    destruct (conf_get (conf w) "kerberos" "principal") eqn:Hc; [reflexivity|].
    assert (Hm : get_kerberos_principal w principal initial_process
                 = (Raised (ConfigurationError "kerberos" "principal"), initial_process))
      by now apply get_kerberos_principal_missing.
    rewrite (H2 initial_process) in Hm. discriminate Hm.
Qed.

(** A renewal that cannot resolve its configuration raises before doing
    anything, for the first value it misses. *)
Lemma renew_from_kt_unconfigured principal keytab exit_on_fail s key :
  first_missing w principal = Some key ->
  renew_from_kt w principal keytab exit_on_fail s
  = (Raised (ConfigurationError "kerberos" key), s).
Proof.
  rewrite renew_from_kt_unfold. unfold first_missing, get_int, get_boolean.
  destruct (conf_getint (conf w) "kerberos" "reinit_frequency") as [n|];
    [|intros H; injection H as <-; reflexivity].
  unfold bind at 1. unfold ret at 1.
  destruct (get_kerberos_principal_cases principal s) as [[p Hp] | Hp].
  - rewrite (bind_returned _ _ _ _ _ Hp).
    assert (Hg : principal_given principal
                 || match conf_get (conf w) "kerberos" "principal" with
                    | Some _ => true | None => false end = true).
    { destruct (principal_given principal) eqn:Hg; [reflexivity|]. simpl.
      destruct (conf_get (conf w) "kerberos" "principal") eqn:Hc; [reflexivity|].
      assert (Hm : get_kerberos_principal w principal s
                   = (Raised (ConfigurationError "kerberos" "principal"), s))
        by now apply get_kerberos_principal_missing.
      rewrite Hp in Hm. discriminate Hm. }
    rewrite Hg.
    destruct (conf_getboolean (conf w) "kerberos" "forwardable") as [fw|];
      [|intros H; injection H as <-; reflexivity].
    unfold bind at 1. unfold ret at 1.
    destruct (conf_getboolean (conf w) "kerberos" "include_ip") as [ip|];
      [|intros H; injection H as <-; reflexivity].
    unfold bind at 1. unfold ret at 1.
    unfold get_mandatory_value.
    destruct (conf_get (conf w) "kerberos" "kinit_path") as [kp|];
      [|intros H; injection H as <-; reflexivity].
    unfold bind at 1. unfold ret at 1.
    destruct (conf_get (conf w) "kerberos" "ccache") as [cc|];
      [|intros H; injection H as <-; reflexivity].
    discriminate.
  - rewrite (bind_raised _ _ _ _ _ Hp).
    apply get_kerberos_principal_missing in Hp. destruct Hp as [Hg Hc].
    rewrite Hg, Hc. simpl. intros H; injection H as <-; reflexivity.
Qed.

(** With the configuration resolved, [kinit] is run and its exit status
    decides. *)
Lemma renew_from_kt_configured principal keytab exit_on_fail s c :
  Configured w principal c ->
  let cmdv := kinit_line c keytab in
  let subp := spawn w (history s ++ [reinit_log w cmdv])%list cmdv in
  let g := NEED_KRB181_WORKAROUND s in
  renew_from_kt w principal keytab exit_on_fail s =
    if (returncode subp =? 0)%Z
    then after_reinit w (set_principal c) exit_on_fail
           (advance s g [reinit_log w cmdv; Popen cmdv (returncode subp)])
    else (if exit_on_fail then Exited (returncode subp) else Returned (returncode subp),
          advance s g [reinit_log w cmdv; Popen cmdv (returncode subp);
                       reinit_failure_log subp]).
Proof.
  intros (Hn & Hp & Hfw & Hip & Hkp & Hcc) cmdv subp g.
  rewrite renew_from_kt_unfold.
  unfold get_int, get_boolean. rewrite Hn. unfold bind at 1. unfold ret at 1.
  rewrite (bind_returned _ _ _ _ _ (Hp s)).
  rewrite Hfw. unfold bind at 1. unfold ret at 1.
  rewrite Hip. unfold bind at 1. unfold ret at 1.
  unfold get_mandatory_value. rewrite Hkp, Hcc.
  unfold bind at 1. unfold ret at 1. unfold bind at 1. unfold ret at 1.
  destruct c as [n p fw ip kp cc]. cbn [set_frequency set_principal set_forwardable
    set_include_ip set_kinit_path set_ccache] in *.
  subst cmdv subp g. cbv zeta.
  set (cmdv := kinit_line _ keytab).
  unfold advance. step.
  repeat rewrite <- app_assoc. simpl.
  destruct (returncode _ =? 0)%Z; simpl.
  - reflexivity.
  - repeat rewrite <- app_assoc. destruct exit_on_fail; reflexivity.
Qed.

Lemma perform_krb181_workaround_configured principal s kp cc :
  conf_get (conf w) "kerberos" "kinit_path" = Some kp ->
  conf_get (conf w) "kerberos" "ccache" = Some cc ->
  let cmdv := workaround_cmdv kp cc in
  let r := returncode (spawn w (history s ++ [workaround_log kp cc])%list cmdv) in
  perform_krb181_workaround w principal s =
    if (r =? 0)%Z
    then (Returned r,
          advance s (NEED_KRB181_WORKAROUND s) [workaround_log kp cc; Call cmdv r])
    else match given_or_configured w principal with
         | Some given =>
             (Returned r,
              advance s (NEED_KRB181_WORKAROUND s)
                      [workaround_log kp cc; Call cmdv r;
                       workaround_failure_log w given cc])
         | None =>
             (Raised (ConfigurationError "kerberos" "principal"),
              advance s (NEED_KRB181_WORKAROUND s) [workaround_log kp cc; Call cmdv r])
         end.
Proof.
  intros Hkp Hcc cmdv r. subst cmdv r.
  unfold perform_krb181_workaround, get_mandatory_value, get_value,
    workaround_failure_log, workaround_log, given_or_configured, advance.
  rewrite Hkp, Hcc. step.
  destruct (returncode _ =? 0)%Z; simpl; repeat rewrite <- app_assoc; [reflexivity|].
  destruct principal as [|a principal]; simpl.
  - destruct (conf_get (conf w) "kerberos" "principal"); simpl;
      repeat rewrite <- app_assoc; reflexivity.
  - repeat rewrite <- app_assoc; reflexivity.
Qed.

Lemma perform_krb181_workaround_unconfigured principal s :
  conf_get (conf w) "kerberos" "kinit_path" = None
  \/ conf_get (conf w) "kerberos" "ccache" = None ->
  exists key,
    perform_krb181_workaround w principal s
    = (Raised (ConfigurationError "kerberos" key), s).
Proof.
  intros H. unfold perform_krb181_workaround, get_mandatory_value.
  destruct (conf_get (conf w) "kerberos" "kinit_path") as [kp|] eqn:Hkp.
  - destruct (conf_get (conf w) "kerberos" "ccache") as [cc|] eqn:Hcc.
    + destruct H; congruence.
    + exists "ccache". reflexivity.
  - exists "kinit_path". reflexivity.
Qed.

Lemma workaround_cycle_configured principal exit_on_fail s kp cc given :
  conf_get (conf w) "kerberos" "kinit_path" = Some kp ->
  conf_get (conf w) "kerberos" "ccache" = Some cc ->
  given_or_configured w principal = Some given ->
  let cmdv := workaround_cmdv kp cc in
  let r := returncode
             (spawn w (history s ++ [Sleep (3 # 2); workaround_log kp cc])%list cmdv) in
  workaround_cycle w principal exit_on_fail s =
    (if exit_on_fail && negb (r =? 0)%Z then Exited r else Returned r,
     advance s (NEED_KRB181_WORKAROUND s)
             (Sleep (3 # 2) :: workaround_log kp cc :: Call cmdv r ::
                (if (r =? 0)%Z then [] else [workaround_failure_log w given cc]))).
Proof.
  intros Hkp Hcc Hgiven cmdv r. subst cmdv r.
  unfold workaround_cycle.
  assert (Hs : time_sleep w (3 # 2) s
               = (Returned tt, advance s (NEED_KRB181_WORKAROUND s) [Sleep (3 # 2)]))
    by (rewrite time_sleep_workaround; reflexivity).
  rewrite (bind_returned _ _ _ _ _ Hs).
  pose proof (perform_krb181_workaround_configured principal
                (advance s (NEED_KRB181_WORKAROUND s) [Sleep (3 # 2)])
                kp cc Hkp Hcc) as Hp.
  cbv zeta in Hp. rewrite Hgiven in Hp.
  rewrite history_advance, need_advance, !advance_advance, <- app_assoc in Hp.
  cbn [app] in Hp.
  destruct (returncode _ =? 0)%Z eqn:Hr;
    rewrite (bind_returned _ _ _ _ _ Hp);
    destruct exit_on_fail; simpl; rewrite ?Hr; reflexivity.
Qed.

Lemma after_reinit_not_required principal exit_on_fail s :
  NEED_KRB181_WORKAROUND s = Some false ->
  after_reinit w principal exit_on_fail s = (Returned 0%Z, s).
Proof.
  intros H. destruct s as [g h]. simpl in H. subst g. reflexivity.
Qed.

Lemma after_reinit_required principal exit_on_fail s :
  NEED_KRB181_WORKAROUND s = Some true ->
  after_reinit w principal exit_on_fail s = workaround_cycle w principal exit_on_fail s.
Proof.
  intros H. destruct s as [g h]. simpl in H. subst g. reflexivity.
Qed.

Lemma after_reinit_unknown principal exit_on_fail s cc :
  NEED_KRB181_WORKAROUND s = None ->
  conf_get (conf w) "kerberos" "ccache" = Some cc ->
  after_reinit w principal exit_on_fail s =
    match read_binary w (history s) cc with
    | None => (Raised (IOError cc), advance s None [Open cc false])
    | Some data =>
        after_reinit w principal exit_on_fail
          (advance s (Some (Bytes.contains marker data)) [Open cc true])
    end.
Proof.
  intros H Hcc. destruct s as [g h]. simpl in H. subst g.
  unfold after_reinit at 1, detect_conf_var, advance. step.
  rewrite Hcc. step.
  destruct (read_binary w h cc) as [data|]; reflexivity.
Qed.

End Paths.

(* ================================================================== *)
(** ** Every renewal follows one of the ways *)

Section Soundness.

Variable w : World.

Lemma after_reinit_sound principal exit_on_fail s kp cc given :
  conf_get (conf w) "kerberos" "kinit_path" = Some kp ->
  conf_get (conf w) "kerberos" "ccache" = Some cc ->
  given_or_configured w principal = Some given ->
  exists out g delta,
    after_reinit w principal exit_on_fail s = (out, advance s g delta)
    /\ AfterReinit w kp cc given exit_on_fail s out g delta.
Proof.
  intros Hkp Hcc Hgiven.
  destruct (NEED_KRB181_WORKAROUND s) as [[|]|] eqn:Hneed.
  - rewrite (after_reinit_required w _ _ _ Hneed).
    rewrite (workaround_cycle_configured w _ _ _ kp cc given Hkp Hcc Hgiven). cbv zeta.
    rewrite Hneed. do 3 eexists. split; [reflexivity|].
    now apply after_required.
  - rewrite (after_reinit_not_required w _ _ _ Hneed).
    exists (Returned 0%Z), (Some false), []. split.
    + now rewrite <- Hneed, advance_nil.
    + now apply after_not_required.
  - rewrite (after_reinit_unknown w _ _ _ cc Hneed Hcc).
    destruct (read_binary w (history s) cc) as [data|] eqn:Hread.
    + destruct (Bytes.contains marker data) eqn:Hmark.
      * rewrite (after_reinit_required w _ _ _ (need_advance _ _ _)).
        rewrite (workaround_cycle_configured w _ _ _ kp cc given Hkp Hcc Hgiven).
        cbv zeta.
        rewrite need_advance, advance_advance. cbn [app].
        do 3 eexists. split; [reflexivity|].
        rewrite history_advance, <- app_assoc. cbn [app].
        now apply after_detected_present with (data := data).
      * rewrite (after_reinit_not_required w _ _ _ (need_advance _ _ _)).
        do 3 eexists. split; [reflexivity|].
        now apply after_detected_absent with (data := data).
    + do 3 eexists. split; [reflexivity|]. now apply after_unreadable.
Qed.

Lemma renew_from_kt_sound principal keytab exit_on_fail s :
  exists out g delta,
    renew_from_kt w principal keytab exit_on_fail s = (out, advance s g delta)
    /\ Renewal w principal keytab exit_on_fail s out g delta.
Proof.
  destruct (first_missing w principal) as [key|] eqn:Hmiss.
  - rewrite (renew_from_kt_unconfigured w principal keytab exit_on_fail s key Hmiss).
    exists (Raised (ConfigurationError "kerberos" key)), (NEED_KRB181_WORKAROUND s), [].
    split; [now rewrite advance_nil | now apply renewal_unconfigured].
  - apply first_missing_none in Hmiss. destruct Hmiss as [c Hc].
    destruct (configured_shown w principal c Hc) as [given Hgiven].
    rewrite (renew_from_kt_configured w _ keytab exit_on_fail s c Hc). cbv zeta.
    destruct (Z.eqb_spec
                (returncode (spawn w (history s ++ [reinit_log w (kinit_line c keytab)])%list
                                   (kinit_line c keytab))) 0) as [Hz | Hnz].
    + rewrite Hz.
      destruct Hc as (Hn & Hp & Hfw & Hip & Hkp & Hcc).
      destruct (after_reinit_sound (set_principal c) exit_on_fail
                  (advance s (NEED_KRB181_WORKAROUND s)
                           [reinit_log w (kinit_line c keytab);
                            Popen (kinit_line c keytab) 0%Z])
                  _ _ given Hkp Hcc Hgiven) as (out & g & delta & Hrun & Hway).
      rewrite Hrun, advance_advance. cbn [app].
      do 3 eexists. split; [reflexivity|].
      apply renewal_tool_success with (given := given); auto.
      repeat split; auto.
    + do 3 eexists. split; [reflexivity|].
      now apply renewal_tool_failure.
Qed.

(** The same, read from a run of [renew_from_kt]. *)
Lemma renew_from_kt_way principal keytab exit_on_fail s out s' :
  renew_from_kt w principal keytab exit_on_fail s = (out, s') ->
  exists delta,
    history s' = (history s ++ delta)%list
    /\ since (history s) (history s') = delta
    /\ Renewal w principal keytab exit_on_fail s out
               (NEED_KRB181_WORKAROUND s') delta.
Proof.
  intros Hrun.
  destruct (renew_from_kt_sound principal keytab exit_on_fail s)
    as (out' & g & delta & Hrun' & Hway).
  rewrite Hrun in Hrun'. injection Hrun' as -> ->.
  exists delta. rewrite since_advance. now repeat split.
Qed.

End Soundness.

(* ================================================================== *)
(** ** What a renewal does, read off its ways *)

Section Renewals.

Variable w : World.

Lemma workaround_events_counts kp cc principal r :
  count is_popen (workaround_events w kp cc principal r) = 0
  /\ count is_open (workaround_events w kp cc principal r) = 0
  /\ count is_call (workaround_events w kp cc principal r) = 1.
Proof.
  unfold workaround_events. destruct (r =? 0)%Z; repeat split; reflexivity.
Qed.

(** After a successful [kinit] nothing more is run from the keytab, and the
    ticket cache is opened once if the global was still [None], not at all
    otherwise. *)
Lemma after_reinit_counts kp cc principal exit_on_fail s out g delta :
  AfterReinit w kp cc principal exit_on_fail s out g delta ->
  count is_popen delta = 0
  /\ count is_open delta
     = match NEED_KRB181_WORKAROUND s with None => 1 | Some _ => 0 end.
Proof.
  intros Hway.
  destruct Hway as [Hn | r Hn | Hn Hr | data Hn Hr Hm | data r Hn Hr Hm];
    rewrite Hn;
    try (destruct (workaround_events_counts kp cc principal r) as (Hp & Ho & _));
    unfold count in *; cbn [filter is_popen is_open length] in *;
    try rewrite Hp; try rewrite Ho; split; reflexivity.
Qed.

(** A global that is set is left as it is. *)
Lemma after_reinit_keeps kp cc principal exit_on_fail s out g delta b :
  AfterReinit w kp cc principal exit_on_fail s out g delta ->
  NEED_KRB181_WORKAROUND s = Some b -> g = Some b.
Proof.
  intros Hway Hb. destruct Hway; congruence.
Qed.

Lemma renewal_keeps principal keytab exit_on_fail s out g delta b :
  Renewal w principal keytab exit_on_fail s out g delta ->
  NEED_KRB181_WORKAROUND s = Some b -> g = Some b.
Proof.
  intros Hway Hb. destruct Hway as [key _ | c subp _ _ | c given out g delta _ _ Hafter].
  - exact Hb.
  - exact Hb.
  - exact (after_reinit_keeps _ _ _ _ _ _ _ _ _ Hafter Hb).
Qed.

Lemma count_zero_not_in p l e : count p l = 0 -> In e l -> p e = false.
Proof.
  unfold count. intros Hc Hin.
  destruct (p e) eqn:Hp; [|reflexivity].
  assert (Hf : In e (filter p l)) by (apply filter_In; now split).
  destruct (filter p l); [destruct Hf | discriminate Hc].
Qed.

(** [kinit] is run from the keytab at most once in a renewal; when it
    exits with a status other than 0 the renewal ends there. *)
Lemma renewal_tool_failed principal keytab exit_on_fail s out g delta cmdv status :
  Renewal w principal keytab exit_on_fail s out g delta ->
  In (Popen cmdv status) delta ->
  status <> 0%Z ->
  out = (if exit_on_fail then Exited status else Returned status)
  /\ g = NEED_KRB181_WORKAROUND s
  /\ exists subp, delta = [reinit_log w cmdv; Popen cmdv status; reinit_failure_log subp].
Proof.
  intros Hway Hin Hne.
  destruct Hway as [key _ | c subp _ _ | c given out g delta _ _ Hafter].
  - destruct Hin.
  - destruct Hin as [H | [H | [H | []]]]; try discriminate H.
    injection H as <- <-. repeat split. now exists subp.
  - destruct Hin as [H | [H | Hin]]; try discriminate H.
    + injection H as _ H. now subst status.
    + destruct (after_reinit_counts _ _ _ _ _ _ _ _ Hafter) as [Hp _].
      apply (count_zero_not_in _ _ _ Hp) in Hin. discriminate Hin.
Qed.

End Renewals.

(** C3: when [kinit] exits with a status [S] other than 0, [renew_from_kt]
    ends the process with [sys.exit(S)] if [exit_on_fail] is true and returns
    [S] to its caller otherwise; in both cases the ticket cache is not opened,
    the workaround is not run and the global is not touched. *)
Theorem renew_from_kt_tool_failure (w : World) (principal : option string)
        (keytab : string) (exit_on_fail : bool) (s s' : Process)
        (out : Outcome Z) (cmdv : list string) (status : Z) :
  renew_from_kt w principal keytab exit_on_fail s = (out, s') ->
  In (Popen cmdv status) (since (history s) (history s')) ->
  status <> 0%Z ->
  out = (if exit_on_fail then Exited status else Returned status)
  /\ count is_open (since (history s) (history s')) = 0
  /\ count is_call (since (history s) (history s')) = 0
  /\ NEED_KRB181_WORKAROUND s' = NEED_KRB181_WORKAROUND s.
Proof.
  intros Hrun Hin Hne.
  destruct (renew_from_kt_way w _ _ _ _ _ _ Hrun) as (delta & _ & Hsince & Hway).
  rewrite Hsince in Hin |- *.
  destruct (renewal_tool_failed w _ _ _ _ _ _ _ _ _ Hway Hin Hne)
    as (Hout & Hg & subp & Hdelta).
  rewrite Hdelta. repeat split; assumption || reflexivity.
Qed.


Lemma renew_from_kt_tool_failure_witness :
  fst failed_reinit = Exited 1%Z
  /\ count is_open (since [] (history (snd failed_reinit))) = 0
  /\ count is_call (since [] (history (snd failed_reinit))) = 0
  /\ NEED_KRB181_WORKAROUND (snd failed_reinit) = None.
Proof.
  apply (renew_from_kt_tool_failure
           (demo_world (fun _ => 1%Z) None) None "airflow.keytab" true initial_process
           (snd failed_reinit) (fst failed_reinit)
           ["kinit"; "-f"; "-A"; "-r"; "3600m"; "-k"; "-t"; "airflow.keytab"; "-c";
            "/tmp/airflow_krb5_ccache"; "airflow/node1@EXAMPLE.COM"] 1%Z).
  - reflexivity.
  - vm_compute. right. left. reflexivity.
  - discriminate.
Defined.

Section Counting.

Variable w : World.

Lemma count_zero_filter p l : count p l = 0 -> filter p l = [].
Proof. unfold count. apply length_zero_iff_nil. Qed.

(** After a successful [kinit] the workaround is run once if the global
    ends as [True], and not at all otherwise. *)
Lemma after_reinit_calls kp cc principal exit_on_fail s out g delta :
  AfterReinit w kp cc principal exit_on_fail s out g delta ->
  count is_call delta = match g with Some true => 1 | _ => 0 end.
Proof.
  intros Hway.
  destruct Hway as [Hn | r Hn | Hn Hr | data Hn Hr Hm | data r Hn Hr Hm];
    try (destruct (workaround_events_counts w kp cc principal r) as (_ & _ & Hc));
    unfold count in *; cbn [filter is_call length] in *;
    try rewrite Hc; reflexivity.
Qed.

(** The ticket cache is opened in a renewal only after a successful
    [kinit] and only while the global is [None], and then once. *)
Lemma renewal_opens principal keytab exit_on_fail s out g delta :
  Renewal w principal keytab exit_on_fail s out g delta ->
  count is_open delta
  = if existsb reinit_succeeded delta
    then match NEED_KRB181_WORKAROUND s with None => 1 | Some _ => 0 end
    else 0.
Proof.
  intros Hway.
  destruct Hway as [key _ | c subp _ Hne | c given out g delta _ _ Hafter].
  - reflexivity.
  - unfold count. simpl.
    destruct (returncode subp); [now contradiction Hne | reflexivity | reflexivity].
  - destruct (after_reinit_counts w _ _ _ _ _ _ _ _ Hafter) as [_ Ho].
    rewrite need_advance in Ho.
    cbn [existsb reinit_log reinit_succeeded orb].
    unfold count in *. cbn [filter is_open reinit_log]. exact Ho.
Qed.

(** The workaround is run in a renewal only after a successful [kinit] and
    only if the global is [True] by then, and then once. *)
Lemma renewal_calls principal keytab exit_on_fail s out g delta :
  Renewal w principal keytab exit_on_fail s out g delta ->
  count is_call delta
  = if existsb reinit_succeeded delta
    then match g with Some true => 1 | _ => 0 end
    else 0.
Proof.
  intros Hway.
  destruct Hway as [key _ | c subp _ Hne | c given out g delta _ _ Hafter].
  - reflexivity.
  - unfold count. simpl.
    destruct (returncode subp); [now contradiction Hne | reflexivity | reflexivity].
  - pose proof (after_reinit_calls _ _ _ _ _ _ _ _ Hafter) as Hc.
    cbn [existsb reinit_log reinit_succeeded orb].
    unfold count in *. cbn [filter is_call reinit_log]. exact Hc.
Qed.

(** A ticket cache that was read settles the global. *)
Lemma renewal_detected principal keytab exit_on_fail s out g delta path :
  Renewal w principal keytab exit_on_fail s out g delta ->
  In (Open path true) delta -> g <> None.
Proof.
  intros Hway Hin.
  destruct Hway as [key _ | c subp _ Hne | c given out g delta _ _ Hafter].
  - destruct Hin.
  - destruct Hin as [H | [H | [H | []]]]; discriminate H.
  - destruct Hafter as [Hn | r Hn | Hn Hr | data Hn Hr Hm | data r Hn Hr Hm];
      try discriminate.
    destruct Hin as [H | [H | [H | []]]]; discriminate H.
Qed.

(** A ticket cache that could not be read ends the renewal with the error
    and leaves the global at [None]. *)
Lemma renewal_unreadable principal keytab exit_on_fail s out g delta path :
  Renewal w principal keytab exit_on_fail s out g delta ->
  In (Open path false) delta ->
  out = Raised (IOError path) /\ g = None
  /\ exists pre, delta = (pre ++ [Open path false])%list.
Proof.
  intros Hway Hin.
  destruct Hway as [key _ | c subp _ Hne | c given out g delta _ _ Hafter].
  - destruct Hin.
  - destruct Hin as [H | [H | [H | []]]]; discriminate H.
  - destruct Hin as [H | [H | Hin]]; try discriminate H.
    destruct Hafter as [Hn | r Hn | Hn Hr | data Hn Hr Hm | data r Hn Hr Hm].
    + destruct Hin.
    + unfold workaround_events in Hin. destruct (r =? 0)%Z;
        repeat (destruct Hin as [H | Hin]; [discriminate H|]); destruct Hin.
    + destruct Hin as [H | []]. injection H as ->.
      repeat split. now exists [reinit_log w (kinit_line c keytab);
                                Popen (kinit_line c keytab) 0%Z].
    + destruct Hin as [H | []]. discriminate H.
    + unfold workaround_events in Hin. destruct (r =? 0)%Z;
        repeat (destruct Hin as [H | Hin]; [discriminate H|]); destruct Hin.
Qed.

End Counting.

(* ================================================================== *)
(** ** The command line of [kinit] *)

(** C2: whatever the two flags of the configuration are, [renew_from_kt] runs
    [kinit] once, with exactly these arguments in this order: the configured
    [kinit_path], [-f] or [-F] by [forwardable], [-a] or [-A] by
    [include_ip], [-r], the configured [reinit_frequency] followed by [m],
    [-k], [-t], the keytab, [-c], the configured [ccache] and the resolved
    principal. *)
Theorem renew_from_kt_command_line (w : World) (principal : option string)
        (keytab : string) (exit_on_fail : bool) (s s' : Process)
        (out : Outcome Z) (n : Z) (fw ip : bool) (kp cc p : string) :
  conf_getint (conf w) "kerberos" "reinit_frequency" = Some n ->
  conf_getboolean (conf w) "kerberos" "forwardable" = Some fw ->
  conf_getboolean (conf w) "kerberos" "include_ip" = Some ip ->
  conf_get (conf w) "kerberos" "kinit_path" = Some kp ->
  conf_get (conf w) "kerberos" "ccache" = Some cc ->
  get_kerberos_principal w principal s = (Returned p, s) ->
  renew_from_kt w principal keytab exit_on_fail s = (out, s') ->
  exists status,
    filter is_popen (since (history s) (history s'))
    = [Popen [kp;
              if fw then "-f" else "-F";
              if ip then "-a" else "-A";
              "-r";
              Str.of_int n ++ "m";
              "-k"; "-t"; keytab; "-c"; cc; p]
             status].
Proof.
  intros Hn Hfw Hip Hkp Hcc Hp Hrun.
  destruct (renew_from_kt_way w _ _ _ _ _ _ Hrun) as (delta & _ & Hsince & Hway).
  rewrite Hsince.
  pose (c := {| set_frequency := n; set_principal := p; set_forwardable := fw;
                set_include_ip := ip; set_kinit_path := kp; set_ccache := cc |}).
  assert (Hc : Configured w principal c).
  { destruct (get_kerberos_principal_pure w _ _ _ _ Hp) as [_ Hall].
    repeat split; assumption. }
  destruct Hway as [key Hun | c' subp Hc' Hne | c' given out g delta Hc' Hgiven Hafter].
  - assert (Hnone : first_missing w principal = None)
      by (apply first_missing_none; now exists c).
    congruence.
  - rewrite <- (configured_unique w _ _ _ Hc Hc'). now exists (returncode subp).
  - rewrite <- (configured_unique w _ _ _ Hc Hc').
    destruct (after_reinit_counts w _ _ _ _ _ _ _ _ Hafter) as [Hpo _].
    exists 0%Z. cbn [filter is_popen reinit_log].
    now rewrite (count_zero_filter _ _ Hpo).
Qed.

Lemma renew_from_kt_command_line_witness :
  exists status,
    filter is_popen (since [] (history (snd first_renewal)))
    = [Popen ["kinit"; "-f"; "-A"; "-r"; "3600m"; "-k"; "-t"; "airflow.keytab";
              "-c"; "/tmp/airflow_krb5_ccache"; "airflow/node1@EXAMPLE.COM"]
             status].
Proof.
  apply (renew_from_kt_command_line
           marked_world None "airflow.keytab" true
           initial_process (snd first_renewal) (fst first_renewal)
           3600%Z true false
           "kinit" "/tmp/airflow_krb5_ccache" "airflow/node1@EXAMPLE.COM");
    reflexivity.
Defined.

(** The four settings of the two flags. *)
Example flag_samples :
  map (fun flags : bool * bool =>
         let w := {| conf := {| conf_get := conf_get demo_conf;
                                conf_getint := conf_getint demo_conf;
                                conf_getboolean := fun _ key =>
                                  Some (if key =? "forwardable"
                                        then fst flags else snd flags) |};
                     get_hostname := "node1";
                     shlex_quote := fun s => s;
                     spawn := spawn marked_world;
                     read_binary := read_binary marked_world;
                     pause_limit := fun _ => demo_limit;
                     pause_limit_ok := fun _ => eq_refl |} in
         filter is_popen
                (history (snd (renew_from_kt w (Some "airflow") "kt" false initial_process))))
      [(true, true); (true, false); (false, true); (false, false)]
  = map (fun flags : string * string =>
           [Popen ["kinit"; fst flags; snd flags; "-r"; "3600m"; "-k"; "-t"; "kt"; "-c";
                   "/tmp/airflow_krb5_ccache"; "airflow"] 0%Z])
        [("-f", "-a"); ("-f", "-A"); ("-F", "-a"); ("-F", "-A")].
Proof. reflexivity. Qed.

(** The renewal lifetime is the number of seconds, in decimal, followed by
    [m]. *)
Example renewal_lifetime_samples :
  map (fun n => Str.of_int n ++ "m") [3600; 0; 86400; 7; -5]%Z
  = ["3600m"; "0m"; "86400m"; "7m"; "-5m"].
Proof. reflexivity. Qed.

(* ================================================================== *)
(** ** The global is computed once *)

Lemma forever_invariant (I : Process -> Prop) (body : Py unit) :
  (forall s, I s -> I (snd (body s))) ->
  forall fuel s, I s -> I (snd (forever fuel body s)).
Proof.
  intros Hbody fuel. induction fuel as [|n IH]; intros s Hs; simpl.
  - exact Hs.
  - unfold bind. specialize (Hbody s Hs).
    destruct (body s) as [[[]| |e|] s1]; simpl in *; auto.
Qed.

Lemma time_sleep_keeps (w : World) (d : Q) (s : Process) :
  NEED_KRB181_WORKAROUND (snd (time_sleep w d s)) = NEED_KRB181_WORKAROUND s.
Proof.
  destruct (time_sleep_cases w d s) as [H | [e H]]; now rewrite H.
Qed.

Lemma pause_keeps (w : World) (s : Process) :
  NEED_KRB181_WORKAROUND (snd (pause w s)) = NEED_KRB181_WORKAROUND s.
Proof.
  unfold pause, get_int.
  destruct (conf_getint (conf w) "kerberos" "reinit_frequency") as [n|];
    [|reflexivity].
  apply time_sleep_keeps.
Qed.

Lemma renew_from_kt_keeps (w : World) principal keytab exit_on_fail s b :
  NEED_KRB181_WORKAROUND s = Some b ->
  NEED_KRB181_WORKAROUND (snd (renew_from_kt w principal keytab exit_on_fail s)) = Some b.
Proof.
  intros Hb.
  destruct (renew_from_kt w principal keytab exit_on_fail s) as [out s'] eqn:Hrun.
  destruct (renew_from_kt_way w _ _ _ _ _ _ Hrun) as (delta & _ & _ & Hway).
  exact (renewal_keeps w _ _ _ _ _ _ _ _ Hway Hb).
Qed.

Lemma standard_round_keeps (w : World) principal keytab s b :
  NEED_KRB181_WORKAROUND s = Some b ->
  NEED_KRB181_WORKAROUND (snd (standard_round w principal keytab s)) = Some b.
Proof.
  intros Hb. change (standard_round w principal keytab)
    with (renew_from_kt w principal keytab true ;; pause w).
  unfold bind.
  pose proof (renew_from_kt_keeps w principal keytab true s b Hb) as Hk.
  destruct (renew_from_kt w principal keytab true s) as [[v| |e|] s1]; simpl in *;
    try exact Hk.
  now rewrite pause_keeps.
Qed.

Lemma run_keeps (w : World) fuel principal keytab mode s b :
  NEED_KRB181_WORKAROUND s = Some b ->
  NEED_KRB181_WORKAROUND (snd (run w fuel principal keytab mode s)) = Some b.
Proof.
  intros Hb. unfold run. destruct keytab as [|c k].
  - exact Hb.
  - unfold bind at 1. unfold log_info, emit.
    destruct mode.
    + apply (forever_invariant (fun s => NEED_KRB181_WORKAROUND s = Some b)).
      * intros s0 H0. now apply standard_round_keeps.
      * exact Hb.
    + unfold bind.
      match goal with
      | |- context [renew_from_kt w principal ?kt true ?s0] =>
          pose proof (renew_from_kt_keeps w principal kt true s0 b Hb) as Hk;
          destruct (renew_from_kt w principal kt true s0) as [[v| |e|] s1]
      end; exact Hk.
Qed.

(** C1: the global starts as [None]. In a renewal the ticket cache is
    inspected only after a [kinit] that exited with 0 and only while the
    global is [None], and then once; a global that holds [True] or [False] is
    never changed again, by [renew_from_kt] or by [run]; and the workaround is
    run once in every renewal with a successful [kinit] that ends with the
    global at [True], so once per cycle, without another inspection, when the
    global was [True] already. *)
Theorem workaround_state_computed_once (w : World) :
  NEED_KRB181_WORKAROUND initial_process = None
  /\ (forall principal keytab exit_on_fail s out s',
        renew_from_kt w principal keytab exit_on_fail s = (out, s') ->
        let delta := since (history s) (history s') in
        count is_open delta
        = (if existsb reinit_succeeded delta
           then match NEED_KRB181_WORKAROUND s with None => 1 | Some _ => 0 end
           else 0)
        /\ count is_call delta
           = (if existsb reinit_succeeded delta
              then match NEED_KRB181_WORKAROUND s' with Some true => 1 | _ => 0 end
              else 0)
        /\ (forall path, In (Open path true) delta -> NEED_KRB181_WORKAROUND s' <> None)
        /\ (forall b, NEED_KRB181_WORKAROUND s = Some b ->
                      NEED_KRB181_WORKAROUND s' = Some b)
        /\ (NEED_KRB181_WORKAROUND s = Some true ->
            existsb reinit_succeeded delta = true ->
            count is_call delta = 1 /\ count is_open delta = 0))
  /\ (forall fuel principal keytab mode s b,
        NEED_KRB181_WORKAROUND s = Some b ->
        NEED_KRB181_WORKAROUND (snd (run w fuel principal keytab mode s)) = Some b).
Proof.
  split; [reflexivity|]. split.
  - intros principal keytab exit_on_fail s out s' Hrun delta.
    destruct (renew_from_kt_way w _ _ _ _ _ _ Hrun) as (d & _ & Hsince & Hway).
    subst delta. rewrite Hsince.
    pose proof (renewal_opens w _ _ _ _ _ _ _ Hway) as Ho.
    pose proof (renewal_calls w _ _ _ _ _ _ _ Hway) as Hc.
    split; [exact Ho|]. split; [exact Hc|]. split; [|split].
    + intros path Hin. exact (renewal_detected w _ _ _ _ _ _ _ _ Hway Hin).
    + intros b Hb. exact (renewal_keeps w _ _ _ _ _ _ _ _ Hway Hb).
    + intros Hb Hok.
      rewrite (renewal_keeps w _ _ _ _ _ _ _ _ Hway Hb), Hok in Hc.
      rewrite Hb, Hok in Ho. now split.
  - intros. now apply run_keeps.
Qed.


(** With a ticket cache that does not hold the marker the global becomes
    [False], and neither the first nor the second renewal runs the
    workaround. *)
Example unmarked_renewals :
  let w := demo_world (fun _ => 0%Z) (Some cache_without_marker) in
  let first := renew_from_kt w None "airflow.keytab" true initial_process in
  let second := renew_from_kt w None "airflow.keytab" true (snd first) in
  NEED_KRB181_WORKAROUND (snd first) = Some false
  /\ count is_open (history (snd first)) = 1
  /\ count is_call (history (snd first)) = 0
  /\ NEED_KRB181_WORKAROUND (snd second) = Some false
  /\ count is_open (history (snd second)) = 1
  /\ count is_call (history (snd second)) = 0.
Proof. repeat split; reflexivity. Qed.

Lemma workaround_state_computed_once_witness :
  (count is_open (since [] (history (snd first_renewal))) = 1
   /\ NEED_KRB181_WORKAROUND (snd first_renewal) = Some true)
  /\ (count is_call (since (history (snd first_renewal)) (history (snd second_renewal))) = 1
      /\ count is_open (since (history (snd first_renewal)) (history (snd second_renewal))) = 0).
Proof.
  destruct (workaround_state_computed_once marked_world) as (_ & Hrenew & _).
  split.
  - split; reflexivity.
  - apply (Hrenew None "airflow.keytab" true (snd first_renewal)
                  (fst second_renewal) (snd second_renewal)); reflexivity.
Defined.

(* ================================================================== *)
(** ** An unreadable ticket cache *)

(** C7: when the ticket cache cannot be read during detection, the error
    leaves [renew_from_kt] as it is (the open is the last thing done, and the
    only one), the global stays [None], and the next renewal whose [kinit]
    exits with 0 inspects the ticket cache again. *)
Theorem cache_read_error_not_cached (w : World) (principal : option string)
        (keytab : string) (exit_on_fail : bool) (s s' : Process)
        (out : Outcome Z) (path : string) :
  renew_from_kt w principal keytab exit_on_fail s = (out, s') ->
  In (Open path false) (since (history s) (history s')) ->
  out = Raised (IOError path)
  /\ NEED_KRB181_WORKAROUND s' = None
  /\ count is_open (since (history s) (history s')) = 1
  /\ (exists before, since (history s) (history s') = (before ++ [Open path false])%list)
  /\ (forall principal' keytab' exit_on_fail' out2 s2,
        renew_from_kt w principal' keytab' exit_on_fail' s' = (out2, s2) ->
        existsb reinit_succeeded (since (history s') (history s2)) = true ->
        count is_open (since (history s') (history s2)) = 1).
Proof.
  intros Hrun Hin.
  destruct (renew_from_kt_way w _ _ _ _ _ _ Hrun) as (delta & _ & Hsince & Hway).
  rewrite Hsince in Hin |- *.
  destruct (renewal_unreadable w _ _ _ _ _ _ _ _ Hway Hin) as (Hout & Hg & before & Hd).
  pose proof (renewal_opens w _ _ _ _ _ _ _ Hway) as Ho.
  repeat split.
  - exact Hout.
  - exact Hg.
  - rewrite Ho.
    destruct Hway as [key _ | c subp _ Hne | c given out g delta _ _ Hafter].
    + destruct Hin.
    + destruct Hin as [H | [H | [H | []]]]; discriminate H.
    + cbn [existsb reinit_log reinit_succeeded orb].
      destruct (NEED_KRB181_WORKAROUND s) as [b|] eqn:Hb; [|reflexivity].
      pose proof (after_reinit_keeps w _ _ _ _ _ _ _ _ b Hafter (need_advance _ _ _)).
      congruence.
  - now exists before.
  - intros principal' keytab' exit_on_fail' out2 s2 Hrun2 Hok.
    destruct (renew_from_kt_way w _ _ _ _ _ _ Hrun2) as (delta2 & _ & Hsince2 & Hway2).
    rewrite Hsince2 in Hok |- *.
    rewrite (renewal_opens w _ _ _ _ _ _ _ Hway2), Hok, Hg. reflexivity.
Qed.


Lemma cache_read_error_not_cached_witness :
  fst unreadable_renewal = Raised (IOError "/tmp/airflow_krb5_ccache")
  /\ NEED_KRB181_WORKAROUND (snd unreadable_renewal) = None
  /\ count is_open (since [] (history (snd unreadable_renewal))) = 1
  /\ (exists before,
        since [] (history (snd unreadable_renewal))
        = (before ++ [Open "/tmp/airflow_krb5_ccache" false])%list)
  /\ (forall principal' keytab' exit_on_fail' out2 s2,
        renew_from_kt unreadable_world principal' keytab' exit_on_fail'
                      (snd unreadable_renewal) = (out2, s2) ->
        existsb reinit_succeeded (since (history (snd unreadable_renewal)) (history s2)) = true ->
        count is_open (since (history (snd unreadable_renewal)) (history s2)) = 1).
Proof.
  apply (cache_read_error_not_cached unreadable_world None "airflow.keytab" true
           initial_process (snd unreadable_renewal) (fst unreadable_renewal)
           "/tmp/airflow_krb5_ccache").
  - reflexivity.
  - vm_compute. right. right. left. reflexivity.
Defined.

(* ================================================================== *)
(** ** The workaround *)


(** C8, as the spec has it, fails: a principal that was given is shown
    followed by [/] and the host name too, not unchanged. *)
Lemma workaround_diagnostic_counterexample :
  fst failing_workaround = Returned 1%Z
  /\ In (Log ERROR workaround_error
             ["airflow/node1"; "/tmp/airflow_krb5_ccache"; "airflow/node1"])
        (history (snd failing_workaround))
  /\ ~ In (Log ERROR workaround_error
               [shown_principal_spec failing_world "airflow" "airflow/_HOST@EXAMPLE.COM";
                "/tmp/airflow_krb5_ccache";
                shown_principal_spec failing_world "airflow" "airflow/_HOST@EXAMPLE.COM"])
          (history (snd failing_workaround))
  /\ given_or_configured failing_world "airflow" = Some "airflow"
  /\ "airflow" ++ "/" ++ get_hostname failing_world
     <> shown_principal_spec failing_world "airflow" "airflow/_HOST@EXAMPLE.COM".
Proof.
  split; [reflexivity|]. split; [|split; [|split]].
  - vm_compute. right. right. left. reflexivity.
  - vm_compute. intros [H | [H | [H | []]]]; discriminate H.
  - reflexivity.
  - vm_compute. discriminate.
Qed.

(** C8, amended: when the workaround exits with a status [r] other than 0
    and a principal is given or, with none given, configured,
    [perform_krb181_workaround] logs one error whose arguments are the
    principal shown, the configured [ccache] and the principal shown again,
    and returns [r] without ending the process. The principal shown is the
    given principal, or the configured one when the given one is empty,
    followed in both cases by [/] and the host name. *)
Theorem workaround_diagnostic (w : World) (principal given : string)
        (s s' : Process) (out : Outcome Z) (cmdv : list string) (r : Z) :
  given_or_configured w principal = Some given ->
  perform_krb181_workaround w principal s = (out, s') ->
  In (Call cmdv r) (since (history s) (history s')) ->
  r <> 0%Z ->
  exists kp cc,
    conf_get (conf w) "kerberos" "kinit_path" = Some kp
    /\ conf_get (conf w) "kerberos" "ccache" = Some cc
    /\ cmdv = [kp; "-c"; cc; "-R"]
    /\ out = Returned r
    /\ since (history s) (history s')
       = [workaround_log kp cc; Call cmdv r;
          Log ERROR workaround_error
              [given ++ "/" ++ get_hostname w; cc; given ++ "/" ++ get_hostname w]].
Proof.
  intros Hgiven Hrun Hin Hne.
  destruct (conf_get (conf w) "kerberos" "kinit_path") as [kp|] eqn:Hkp.
  - destruct (conf_get (conf w) "kerberos" "ccache") as [cc|] eqn:Hcc.
    + rewrite (perform_krb181_workaround_configured w principal s kp cc Hkp Hcc) in Hrun.
      cbv zeta in Hrun. rewrite Hgiven in Hrun.
      destruct (returncode _ =? 0)%Z eqn:Hz in Hrun; injection Hrun as <- <-;
        rewrite since_advance in Hin |- *.
      * destruct Hin as [H | [H | []]]; [discriminate H|].
        injection H as _ Hr. rewrite Hr in Hz. apply Z.eqb_eq in Hz. contradiction.
      * destruct Hin as [H | [H | [H | []]]]; try discriminate H.
        injection H as <- Hr. rewrite Hr.
        exists kp, cc. repeat split.
    + destruct (perform_krb181_workaround_unconfigured w principal s) as [key Hkey];
        [now right|].
      rewrite Hkey in Hrun. injection Hrun as <- <-.
      rewrite since_refl in Hin. destruct Hin.
  - destruct (perform_krb181_workaround_unconfigured w principal s) as [key Hkey];
      [now left|].
    rewrite Hkey in Hrun. injection Hrun as <- <-.
    rewrite since_refl in Hin. destruct Hin.
Qed.

Lemma workaround_diagnostic_witness :
  exists kp cc,
    Some "kinit" = Some kp
    /\ Some "/tmp/airflow_krb5_ccache" = Some cc
    /\ ["kinit"; "-c"; "/tmp/airflow_krb5_ccache"; "-R"] = [kp; "-c"; cc; "-R"]
    /\ fst failing_workaround = Returned 1%Z
    /\ since [] (history (snd failing_workaround))
       = [workaround_log kp cc;
          Call ["kinit"; "-c"; "/tmp/airflow_krb5_ccache"; "-R"] 1%Z;
          Log ERROR workaround_error ["airflow/node1"; cc; "airflow/node1"]].
Proof.
  apply (workaround_diagnostic failing_world "airflow" "airflow"
           initial_process (snd failing_workaround) (fst failing_workaround)
           ["kinit"; "-c"; "/tmp/airflow_krb5_ccache"; "-R"] 1%Z).
  - reflexivity.
  - reflexivity.
  - vm_compute. right. left. reflexivity.
  - discriminate.
Defined.

(** With no principal given and none configured, the diagnostic is not
    logged: [conf.get] raises once the workaround has exited. *)
Example workaround_diagnostic_unconfigured :
  let w := {| conf := {| conf_get := fun section key =>
                           if key =? "principal" then None
                           else conf_get demo_conf section key;
                         conf_getint := conf_getint demo_conf;
                         conf_getboolean := conf_getboolean demo_conf |};
              get_hostname := "node1";
              shlex_quote := fun s => s;
              spawn := spawn failing_world;
              read_binary := read_binary failing_world;
              pause_limit := fun _ => demo_limit;
              pause_limit_ok := fun _ => eq_refl |} in
  perform_krb181_workaround w "" initial_process
  = (Raised (ConfigurationError "kerberos" "principal"),
     {| NEED_KRB181_WORKAROUND := None;
        history := [workaround_log "kinit" "/tmp/airflow_krb5_ccache";
                    Call ["kinit"; "-c"; "/tmp/airflow_krb5_ccache"; "-R"] 1%Z] |}).
Proof. reflexivity. Qed.

(* ================================================================== *)
(** ** The pause and the shape of a renewal *)

Section Pauses.

Variable w : World.

(** The pause of the standard mode is taken, for the [reinit_frequency]
    configured, or refused with an exception, and nothing else is done. *)
Lemma pause_cases (s : Process) :
  (exists m,
      conf_getint (conf w) "kerberos" "reinit_frequency" = Some m
      /\ pause w s
         = (Returned tt, advance s (NEED_KRB181_WORKAROUND s) [Sleep (inject_Z m)]))
  \/ exists e, pause w s = (Raised e, s).
Proof.
  unfold pause, get_int.
  destruct (conf_getint (conf w) "kerberos" "reinit_frequency") as [m|].
  - unfold bind at 1. unfold ret at 1.
    destruct (time_sleep_cases w (inject_Z m) s) as [H | [e H]].
    + left. exists m. now split.
    + right. now exists e.
  - right. now eexists.
Qed.

(** A [reinit_frequency] that [time.sleep] accepts: not negative, within
    what the library converts and within the limit of the platform. *)
Lemma pause_taken (m : Z) (s : Process) :
  conf_getint (conf w) "kerberos" "reinit_frequency" = Some m ->
  (0 <= m <= 9223372036)%Z ->
  Qle_bool (inject_Z m) (pause_limit w (history s)) = true ->
  pause w s
  = (Returned tt, advance s (NEED_KRB181_WORKAROUND s) [Sleep (inject_Z m)]).
Proof.
  intros Hm Hrange Hlimit. unfold pause, get_int. rewrite Hm.
  unfold bind at 1. unfold ret at 1.
  rewrite time_sleep_accepted; [reflexivity | | | | exact Hlimit];
    apply Qle_bool_iff; unfold Qle, PyTime_MIN, PyTime_MAX, inject_Z; simpl; lia.
Qed.

Lemma interval_sleep_is_interval (m : Z) :
  conf_getint (conf w) "kerberos" "reinit_frequency" = Some m ->
  is_interval_sleep w (Sleep (inject_Z m)) = true.
Proof.
  intros Hm. unfold is_interval_sleep. rewrite Hm. apply Qeq_bool_iff. reflexivity.
Qed.

(** The pause before the workaround lasts a second and a half, which no
    whole number of seconds equals. *)
Lemma workaround_sleep_not_interval : is_interval_sleep w (Sleep (3 # 2)) = false.
Proof.
  unfold is_interval_sleep.
  destruct (conf_getint (conf w) "kerberos" "reinit_frequency") as [m|];
    [|reflexivity].
  destruct (Qeq_bool (3 # 2) (inject_Z m)) eqn:H; [|reflexivity].
  apply Qeq_bool_iff in H. unfold Qeq in H. simpl in H. lia.
Qed.

Lemma log_not_interval level msg args : is_interval_sleep w (Log level msg args) = false.
Proof. reflexivity. Qed.

Lemma popen_not_interval cmdv status : is_interval_sleep w (Popen cmdv status) = false.
Proof. reflexivity. Qed.

Lemma call_not_interval cmdv status : is_interval_sleep w (Call cmdv status) = false.
Proof. reflexivity. Qed.

Lemma open_not_interval path ok : is_interval_sleep w (Open path ok) = false.
Proof. reflexivity. Qed.

Lemma quiet_workaround_events kp cc given r :
  quiet w (workaround_events w kp cc given r) = true.
Proof.
  unfold workaround_events, quiet.
  cbn [forallb is_popen workaround_log workaround_failure_log negb andb].
  rewrite workaround_sleep_not_interval.
  destruct (r =? 0)%Z; reflexivity.
Qed.

Lemma quiet_after_reinit kp cc given exit_on_fail s out g delta :
  AfterReinit w kp cc given exit_on_fail s out g delta -> quiet w delta = true.
Proof.
  intros Hway.
  destruct Hway as [Hn | r Hn | Hn Hr | data Hn Hr Hm | data r Hn Hr Hm];
    try reflexivity; apply quiet_workaround_events.
Qed.

Lemma well_spaced_quiet l l' armed :
  quiet w l = true -> well_spaced w armed (l ++ l')%list = well_spaced w armed l'.
Proof.
  unfold quiet. induction l as [|e l IH]; intros H; [reflexivity|].
  cbn [forallb] in H. apply andb_true_iff in H. destruct H as [He Hl].
  apply andb_true_iff in He. destruct He as [Hp Hi].
  apply negb_true_iff in Hp, Hi.
  cbn [app well_spaced]. rewrite Hp, Hi. now apply IH.
Qed.

Lemma count_app p (l l' : list Event) : count p (l ++ l')%list = count p l + count p l'.
Proof. unfold count. now rewrite filter_app, length_app. Qed.

Lemma count_quiet l :
  quiet w l = true -> count is_popen l = 0 /\ count (is_interval_sleep w) l = 0.
Proof.
  unfold quiet, count. induction l as [|e l IH]; intros H; [now split|].
  cbn [forallb] in H. apply andb_true_iff in H. destruct H as [He Hl].
  apply andb_true_iff in He. destruct He as [Hp Hi].
  apply negb_true_iff in Hp, Hi.
  cbn [filter]. rewrite Hp, Hi. now apply IH.
Qed.

(** What a renewal does: nothing, or a log line, one [kinit] from the
    keytab and then neither another one nor the pause of the standard
    mode. *)
Lemma renewal_shape principal keytab exit_on_fail s out g delta :
  Renewal w principal keytab exit_on_fail s out g delta ->
  out <> Running
  /\ ((delta = [] /\ exists e, out = Raised e)
      \/ exists cmdv status tail,
           delta = reinit_log w cmdv :: Popen cmdv status :: tail
           /\ quiet w tail = true
           /\ (status <> 0%Z ->
               out = if exit_on_fail then Exited status else Returned status)).
Proof.
  intros Hway.
  destruct Hway as [key _ | c subp _ Hne | c given out g delta _ _ Hafter].
  - split; [discriminate|]. left. split; [reflexivity | eauto].
  - split; [destruct exit_on_fail; discriminate|]. right.
    exists (kinit_line c keytab), (returncode subp), [reinit_failure_log subp].
    repeat split.
  - split.
    + destruct Hafter; unfold workaround_outcome;
        try destruct (exit_on_fail && negb (_ =? 0)%Z); discriminate.
    + right. exists (kinit_line c keytab), 0%Z, delta.
      repeat split.
      * exact (quiet_after_reinit _ _ _ _ _ _ _ _ Hafter).
      * intros H. now contradiction H.
Qed.

Lemma well_spaced_renewal_end principal keytab exit_on_fail s out g delta :
  Renewal w principal keytab exit_on_fail s out g delta ->
  well_spaced w true delta = true.
Proof.
  intros Hway.
  destruct (renewal_shape _ _ _ _ _ _ _ Hway)
    as [_ [[-> _] | (c & st & tail & -> & Hq & _)]]; [reflexivity|].
  cbn [well_spaced is_popen reinit_log andb]. rewrite ?log_not_interval.
  cbn [well_spaced is_popen andb].
  rewrite <- (app_nil_r tail). now rewrite well_spaced_quiet.
Qed.

Lemma well_spaced_renewal_round principal keytab exit_on_fail s v g delta m rest :
  Renewal w principal keytab exit_on_fail s (Returned v) g delta ->
  conf_getint (conf w) "kerberos" "reinit_frequency" = Some m ->
  well_spaced w true (delta ++ Sleep (inject_Z m) :: rest)%list
  = well_spaced w true rest.
Proof.
  intros Hway Hm.
  destruct (renewal_shape _ _ _ _ _ _ _ Hway)
    as [_ [[_ [e He]] | (c & st & tail & -> & Hq & _)]]; [discriminate He|].
  cbn [app well_spaced is_popen reinit_log andb]. rewrite ?log_not_interval.
  cbn [well_spaced is_popen andb].
  rewrite well_spaced_quiet by exact Hq.
  cbn [well_spaced is_popen]. now rewrite (interval_sleep_is_interval m Hm).
Qed.

Lemma count_renewal_round principal keytab exit_on_fail s v g delta m :
  Renewal w principal keytab exit_on_fail s (Returned v) g delta ->
  conf_getint (conf w) "kerberos" "reinit_frequency" = Some m ->
  count is_popen (delta ++ [Sleep (inject_Z m)])%list = 1
  /\ count (is_interval_sleep w) (delta ++ [Sleep (inject_Z m)])%list = 1.
Proof.
  intros Hway Hm.
  destruct (renewal_shape _ _ _ _ _ _ _ Hway)
    as [_ [[_ [e He]] | (c & st & tail & -> & Hq & _)]]; [discriminate He|].
  destruct (count_quiet _ Hq) as [Hp Hi].
  apply count_zero_filter in Hp, Hi.
  unfold count. cbn [app filter is_popen reinit_log].
  rewrite ?log_not_interval, ?popen_not_interval.
  rewrite !filter_app, Hp, Hi.
  cbn [app filter is_popen]. rewrite (interval_sleep_is_interval m Hm).
  split; reflexivity.
Qed.

Lemma standard_round_unfold principal keytab :
  standard_round w principal keytab
  = (renew_from_kt w principal keytab true ;; pause w).
Proof. reflexivity. Qed.

(** The loop of the standard mode, cut after [fuel] rounds: it has not
    returned; renewals and pauses alternate in what it did; and if it is
    still running it went through [fuel] full rounds. *)
Lemma forever_standard principal keytab fuel :
  forall s, exists out g delta,
    forever fuel (standard_round w principal keytab) s = (out, advance s g delta)
    /\ out <> Returned tt
    /\ well_spaced w true delta = true
    /\ (out = Running ->
        Cycles w principal keytab fuel s (advance s g delta)
        /\ count is_popen delta = fuel
        /\ count (is_interval_sleep w) delta = fuel).
Proof.
  induction fuel as [|n IH]; intros s.
  - exists Running, (NEED_KRB181_WORKAROUND s), []. rewrite advance_nil.
    repeat split; try discriminate. apply cycles_done.
  - cbn [forever]. unfold bind at 1.
    change (standard_round w principal keytab s)
      with ((renew_from_kt w principal keytab true ;; pause w) s).
    unfold bind at 1.
    destruct (renew_from_kt_sound w principal keytab true s)
      as (out1 & g1 & d1 & Hrun & Hway).
    rewrite Hrun.
    destruct (renewal_shape _ _ _ _ _ _ _ Hway) as [Hnr _].
    pose proof (well_spaced_renewal_end _ _ _ _ _ _ _ Hway) as Hend.
    destruct out1 as [v | st | e | ]; [| | |now contradiction Hnr].
    + destruct (pause_cases (advance s g1 d1)) as [(m & Hm & Hs) | [e Hs]].
      * rewrite Hs. rewrite need_advance, advance_advance.
        destruct (IH (advance s g1 (d1 ++ [Sleep (inject_Z m)])))
          as (out & g & delta & Hloop & Hnot & Hws & Hcyc).
        rewrite Hloop, advance_advance.
        exists out, g, ((d1 ++ [Sleep (inject_Z m)]) ++ delta)%list.
        split; [reflexivity|]. split; [exact Hnot|]. split.
        -- rewrite <- app_assoc. cbn [app].
           rewrite (well_spaced_renewal_round _ _ _ _ _ _ _ _ _ Hway Hm). exact Hws.
        -- intros Hout. destruct (Hcyc Hout) as (Hc & Hp & Hi).
           destruct (count_renewal_round _ _ _ _ _ _ _ _ Hway Hm) as [Hp1 Hi1].
           rewrite (count_app is_popen (d1 ++ [Sleep (inject_Z m)]) delta),
             (count_app (is_interval_sleep w) (d1 ++ [Sleep (inject_Z m)]) delta),
             Hp, Hi, Hp1, Hi1.
           repeat split.
           apply cycles_round with (v := v) (s1 := advance s g1 d1)
                                   (s2 := advance s g1 (d1 ++ [Sleep (inject_Z m)])).
           ++ exact Hrun.
           ++ rewrite Hs. now rewrite need_advance, advance_advance.
           ++ rewrite advance_advance in Hc. exact Hc.
      * rewrite Hs.
        exists (Raised e), g1, d1.
        repeat split; try discriminate. exact Hend.
    + exists (Exited st), g1, d1. repeat split; try discriminate. exact Hend.
    + exists (Raised e), g1, d1. repeat split; try discriminate. exact Hend.
Qed.

(** As long as the renewals return and the pauses are taken, the loop
    goes on. *)
Lemma cycles_running principal keytab n s s' :
  Cycles w principal keytab n s s' ->
  forever n (standard_round w principal keytab) s = (Running, s').
Proof.
  intros H. induction H as [s | n s v s1 s2 s3 Hrun Hsleep _ IH]; [reflexivity|].
  cbn [forever]. unfold bind at 1.
  change (standard_round w principal keytab s)
    with ((renew_from_kt w principal keytab true ;; pause w) s).
  unfold bind at 1.
  now rewrite Hrun, Hsleep.
Qed.

(** If every renewal returns and every pause is taken, every number of
    rounds is reached. *)
Lemma cycles_unbounded principal keytab :
  (forall s, exists v s1, renew_from_kt w principal keytab true s = (Returned v, s1)) ->
  (forall s, exists s1, pause w s = (Returned tt, s1)) ->
  forall n s, exists s', Cycles w principal keytab n s s'.
Proof.
  intros Hret Hpause n. induction n as [|n IH]; intros s.
  - exists s. apply cycles_done.
  - destruct (Hret s) as (v & s1 & Hrun).
    destruct (Hpause s1) as (s2 & Hs).
    destruct (IH s2) as [s3 Hc].
    exists s3. now apply cycles_round with (v := v) (s1 := s1) (s2 := s2).
Qed.

End Pauses.

(* ================================================================== *)
(** ** [run] *)


Section Run.

Variable w : World.

Lemma run_with_keytab fuel principal c k mode s :
  run w fuel principal (String c k) mode s
  = match mode with
    | STANDARD => forever fuel (standard_round w principal (String c k)) (started s mode)
    | ONE_TIME =>
        (discard (fst (renew_from_kt w principal (String c k) true (started s mode))),
         snd (renew_from_kt w principal (String c k) true (started s mode)))
    end.
Proof.
  destruct mode; [reflexivity|].
  change (run w fuel principal (String c k) ONE_TIME s)
    with (bind (renew_from_kt w principal (String c k) true) (fun _ => ret tt)
               (started s ONE_TIME)).
  unfold bind.
  destruct (renew_from_kt w principal (String c k) true (started s ONE_TIME))
    as [[v| |e|] s1]; reflexivity.
Qed.

Lemma since_started s mode g delta :
  since (history s) (history (advance (started s mode) g delta))
  = Log INFO "Using airflow kerberos with mode: %s" [value mode] :: delta.
Proof.
  unfold started. rewrite advance_advance. apply since_advance.
Qed.

(** The one-time mode: one renewal, with [exit_on_fail] true, and
    nothing after it. *)
Lemma run_one_time fuel principal c k s :
  exists out g delta,
    renew_from_kt w principal (String c k) true (started s ONE_TIME)
    = (out, advance (started s ONE_TIME) g delta)
    /\ run w fuel principal (String c k) ONE_TIME s
       = (discard out, advance (started s ONE_TIME) g delta)
    /\ Renewal w principal (String c k) true (started s ONE_TIME) out g delta.
Proof.
  destruct (renew_from_kt_sound w principal (String c k) true (started s ONE_TIME))
    as (out & g & delta & Hrun & Hway).
  exists out, g, delta. rewrite run_with_keytab, Hrun. now repeat split.
Qed.

End Run.

(** C6: without a keytab, whatever the principal and the mode, [run] logs
    one warning and ends the process with status 0; no child process is
    started. *)
Theorem run_without_keytab (w : World) (fuel : nat) (principal : option string)
        (mode : KerberosMode) (s : Process) :
  run w fuel principal "" mode s
  = (Exited 0%Z,
     advance s (NEED_KRB181_WORKAROUND s)
             [Log WARNING "Keytab renewer not starting, no keytab configured" []])
  /\ count is_popen (since (history s) (history (snd (run w fuel principal "" mode s)))) = 0
  /\ count is_call (since (history s) (history (snd (run w fuel principal "" mode s)))) = 0.
Proof.
  assert (H : run w fuel principal "" mode s
              = (Exited 0%Z,
                 advance s (NEED_KRB181_WORKAROUND s)
                   [Log WARNING "Keytab renewer not starting, no keytab configured" []]))
    by reflexivity.
  split; [exact H|]. rewrite H. cbn [snd]. rewrite since_advance. split; reflexivity.
Qed.

(** C10: in the one-time mode [run] calls [renew_from_kt] with
    [exit_on_fail] true, so when [kinit] exits with a status [S] other than 0
    the process ends with [sys.exit(S)]: nothing is returned to the caller of
    [run]. *)
Theorem run_one_time_exits_on_failure (w : World) (fuel : nat)
        (principal : option string) (keytab : string) (s s' : Process)
        (out : Outcome unit) (cmdv : list string) (status : Z) :
  run w fuel principal keytab ONE_TIME s = (out, s') ->
  In (Popen cmdv status) (since (history s) (history s')) ->
  status <> 0%Z ->
  out = Exited status
  /\ renew_from_kt w principal keytab true (started s ONE_TIME) = (Exited status, s').
Proof.
  intros Hrun Hin Hne. destruct keytab as [|c k].
  - assert (H : run w fuel principal "" ONE_TIME s
                = (Exited 0%Z,
                   advance s (NEED_KRB181_WORKAROUND s)
                     [Log WARNING "Keytab renewer not starting, no keytab configured" []]))
      by reflexivity.
    rewrite H in Hrun. injection Hrun as <- <-.
    rewrite since_advance in Hin. destruct Hin as [H1 | []]. discriminate H1.
  - destruct (run_one_time w fuel principal c k s) as (o & g & delta & Hren & Hrun' & Hway).
    rewrite Hrun' in Hrun. injection Hrun as <- <-.
    rewrite since_started in Hin. destruct Hin as [H | Hin]; [discriminate H|].
    destruct (renewal_tool_failed w _ _ _ _ _ _ _ _ _ Hway Hin Hne) as (Ho & _ & _).
    subst o. split; [reflexivity | exact Hren].
Qed.


Lemma run_one_time_exits_on_failure_witness :
  fst failed_one_time = Exited 1%Z
  /\ renew_from_kt failing_world None "airflow.keytab" true
                   (started initial_process ONE_TIME)
     = (Exited 1%Z, snd failed_one_time).
Proof.
  apply (run_one_time_exits_on_failure failing_world 0 None "airflow.keytab"
           initial_process (snd failed_one_time) (fst failed_one_time)
           ["kinit"; "-f"; "-A"; "-r"; "3600m"; "-k"; "-t"; "airflow.keytab"; "-c";
            "/tmp/airflow_krb5_ccache"; "airflow/node1@EXAMPLE.COM"] 1%Z).
  - reflexivity.
  - vm_compute. right. right. left. reflexivity.
  - discriminate.
Defined.

(** C9, as the spec has it, fails: with a [reinit_frequency] of -5 the
    standard mode performs one renewal, [time.sleep] refuses the negative
    length and [run] ends with its error, after one renewal and no pause,
    however many rounds are allowed. *)
Lemma run_modes_counterexample :
  conf_getint (conf hasty_world) "kerberos" "reinit_frequency" = Some (-5)%Z
  /\ fst hasty_run = Raised (ValueError "sleep length must be non-negative")
  /\ count is_popen (history (snd hasty_run)) = 1
  /\ count (is_interval_sleep hasty_world) (history (snd hasty_run)) = 0
  /\ (forall fuel,
         run hasty_world (S fuel) None "airflow.keytab" STANDARD initial_process
         = hasty_run).
Proof.
  split; [reflexivity|]. split; [reflexivity|]. split; [reflexivity|].
  split; [reflexivity|].
  intros fuel. rewrite run_with_keytab. cbn [forever]. unfold bind at 1.
  assert (Hround : standard_round hasty_world None "airflow.keytab"
                     (started initial_process STANDARD)
                   = (Raised (ValueError "sleep length must be non-negative"),
                      snd hasty_run)) by (vm_compute; reflexivity).
  rewrite Hround. vm_compute. reflexivity.
Qed.

(** C9, amended: with a keytab, the one-time mode is one call of
    [renew_from_kt] and nothing more: when the call returns, [run] returns,
    [kinit] has been run from the keytab once and no pause of the standard
    mode was taken. The standard mode never returns: cut after any number of
    rounds, the loop is still running or the process has ended; in what it
    did, no two renewals from the keytab come without the pause of
    [reinit_frequency] seconds in between; while it is running, each round
    was one renewal that returned and then one pause; and as long as the
    renewals return and [time.sleep] takes the pauses the loop goes on, so
    only then the renewals have no bound. *)
Theorem run_modes (w : World) (principal : option string) (c : ascii)
        (k : string) (s : Process) :
  (forall fuel,
      run w fuel principal (String c k) ONE_TIME s
      = (discard (fst (renew_from_kt w principal (String c k) true (started s ONE_TIME))),
         snd (renew_from_kt w principal (String c k) true (started s ONE_TIME)))
      /\ forall out s',
          run w fuel principal (String c k) ONE_TIME s = (out, s') ->
          out <> Running
          /\ count is_popen (since (history s) (history s')) <= 1
          /\ count (is_interval_sleep w) (since (history s) (history s')) = 0
          /\ (out = Returned tt ->
              count is_popen (since (history s) (history s')) = 1))
  /\ (forall fuel out s',
        run w fuel principal (String c k) STANDARD s = (out, s') ->
        out <> Returned tt
        /\ well_spaced w true (since (history s) (history s')) = true
        /\ (out = Running ->
            Cycles w principal (String c k) fuel (started s STANDARD) s'
            /\ count is_popen (since (history s) (history s')) = fuel
            /\ count (is_interval_sleep w) (since (history s) (history s')) = fuel))
  /\ (forall n s',
        Cycles w principal (String c k) n (started s STANDARD) s' ->
        run w n principal (String c k) STANDARD s = (Running, s'))
  /\ ((forall s0, exists v s1,
          renew_from_kt w principal (String c k) true s0 = (Returned v, s1)) ->
      (forall s0, exists s1, pause w s0 = (Returned tt, s1)) ->
      forall n, exists s',
        run w n principal (String c k) STANDARD s = (Running, s')
        /\ count is_popen (since (history s) (history s')) = n
        /\ count (is_interval_sleep w) (since (history s) (history s')) = n).
Proof.
  assert (Hstd : forall fuel out s',
             run w fuel principal (String c k) STANDARD s = (out, s') ->
             out <> Returned tt
             /\ well_spaced w true (since (history s) (history s')) = true
             /\ (out = Running ->
                 Cycles w principal (String c k) fuel (started s STANDARD) s'
                 /\ count is_popen (since (history s) (history s')) = fuel
                 /\ count (is_interval_sleep w) (since (history s) (history s')) = fuel)).
  { intros fuel out s' Hrun. rewrite run_with_keytab in Hrun.
    destruct (forever_standard w principal (String c k) fuel (started s STANDARD))
      as (out' & g & delta & Hloop & Hnot & Hws & Hcyc).
    rewrite Hloop in Hrun. injection Hrun as <- <-.
    rewrite since_started. split; [exact Hnot|]. split; [exact Hws|].
    intros Hout. destruct (Hcyc Hout) as (Hc & Hp & Hi). now repeat split. }
  assert (Hgo : forall n s',
             Cycles w principal (String c k) n (started s STANDARD) s' ->
             run w n principal (String c k) STANDARD s = (Running, s')).
  { intros n s' Hc. rewrite run_with_keytab. now apply cycles_running. }
  split; [|split; [exact Hstd | split; [exact Hgo|]]].
  - intros fuel. split; [apply run_with_keytab|].
    intros out s' Hrun.
    destruct (run_one_time w fuel principal c k s) as (o & g & delta & _ & Hrun' & Hway).
    rewrite Hrun' in Hrun. injection Hrun as <- <-.
    rewrite since_started.
    destruct (renewal_shape w _ _ _ _ _ _ _ Hway)
      as [Hnr [[-> [e ->]] | (cmdv & st & tail & -> & Hq & _)]].
    + repeat split; try discriminate. unfold count. simpl. lia.
    + destruct (count_quiet w _ Hq) as [Hp Hi].
      apply count_zero_filter in Hp, Hi.
      unfold count. cbn [filter is_popen reinit_log length].
      rewrite ?log_not_interval, ?popen_not_interval.
      rewrite Hp, Hi. cbn [length].
      repeat split; try lia. destruct o; try discriminate. now contradiction Hnr.
  - intros Hret Hpause n.
    destruct (cycles_unbounded w principal (String c k) Hret Hpause n (started s STANDARD))
      as [s' Hc].
    exists s'. pose proof (Hgo n s' Hc) as Hrun.
    destruct (Hstd n Running s' Hrun) as (_ & _ & Hcount).
    destruct (Hcount eq_refl) as (_ & Hp & Hi). now repeat split.
Qed.

(** What [marked_world] is configured with. *)
Lemma marked_world_configured :
  Configured marked_world None
    {| set_frequency := 3600; set_principal := "airflow/node1@EXAMPLE.COM";
       set_forwardable := true; set_include_ip := false;
       set_kinit_path := "kinit"; set_ccache := "/tmp/airflow_krb5_ccache" |}.
Proof. repeat split. Qed.

(** In the world of [marked_world] every renewal returns. *)
Lemma marked_world_renewal_returns (s : Process) :
  exists v s1,
    renew_from_kt marked_world None "airflow.keytab" true s = (Returned v, s1).
Proof.
  assert (Hkp : conf_get (conf marked_world) "kerberos" "kinit_path" = Some "kinit")
    by reflexivity.
  assert (Hcc : conf_get (conf marked_world) "kerberos" "ccache"
                = Some "/tmp/airflow_krb5_ccache") by reflexivity.
  assert (Hgiven : given_or_configured marked_world "airflow/node1@EXAMPLE.COM"
                   = Some "airflow/node1@EXAMPLE.COM") by reflexivity.
  assert (Hspawn : forall h cmdv, returncode (spawn marked_world h cmdv) = 0%Z)
    by reflexivity.
  assert (Hcycle : forall s0,
             exists s1, workaround_cycle marked_world "airflow/node1@EXAMPLE.COM" true s0
                        = (Returned 0%Z, s1)).
  { intros s0.
    rewrite (workaround_cycle_configured marked_world _ true s0 _ _ _ Hkp Hcc Hgiven).
    cbv zeta. rewrite Hspawn. eauto. }
  rewrite (renew_from_kt_configured marked_world None "airflow.keytab" true s _
             marked_world_configured).
  cbv zeta. rewrite Hspawn. cbn [Z.eqb set_principal].
  destruct (NEED_KRB181_WORKAROUND s) as [[|]|] eqn:Hneed.
  - rewrite after_reinit_required by (now rewrite need_advance).
    match goal with
    | |- context [workaround_cycle _ _ _ ?s0] => destruct (Hcycle s0) as [s1 H1]
    end.
    rewrite H1. eauto.
  - rewrite after_reinit_not_required by (now rewrite need_advance). eauto.
  - rewrite (after_reinit_unknown marked_world _ _ _ _ (need_advance _ _ _) Hcc).
    change (read_binary marked_world _ "/tmp/airflow_krb5_ccache")
      with (Some cache_with_marker).
    cbv iota beta.
    rewrite after_reinit_required by reflexivity.
    match goal with
    | |- context [workaround_cycle _ _ _ ?s0] => destruct (Hcycle s0) as [s1 H1]
    end.
    rewrite H1. eauto.
Qed.

(** In the world of [marked_world] every pause of the standard mode is
    taken. *)
Lemma marked_world_pause_taken (s : Process) :
  exists s1, pause marked_world s = (Returned tt, s1).
Proof.
  eexists. apply (pause_taken marked_world 3600%Z s); [reflexivity | lia | reflexivity].
Qed.

Lemma run_modes_witness :
  exists s',
    run marked_world 3 None "airflow.keytab" STANDARD initial_process = (Running, s')
    /\ count is_popen (since [] (history s')) = 3
    /\ count (is_interval_sleep marked_world) (since [] (history s')) = 3.
Proof.
  destruct (run_modes marked_world None "a" "irflow.keytab" initial_process)
    as (_ & _ & _ & Hunbounded).
  apply (Hunbounded marked_world_renewal_returns marked_world_pause_taken).
Defined.

(* ================================================================== *)
(** ** Replacing in strings *)

Module StrFacts.
Import Str.

Lemma append_nil_r (s : string) : s ++ "" = s.
Proof. induction s as [|c s IH]; simpl; [reflexivity | now rewrite IH]. Qed.

Lemma append_assoc (a b c : string) : (a ++ b) ++ c = a ++ b ++ c.
Proof. induction a as [|x a IH]; simpl; [reflexivity | now rewrite IH]. Qed.

Lemma length_append (a b : string) :
  String.length (a ++ b) = String.length a + String.length b.
Proof. induction a as [|x a IH]; simpl; [reflexivity | now rewrite IH]. Qed.

Lemma prefix_iff (old s : string) :
  prefix old s = true <-> exists rest, s = old ++ rest.
Proof.
  revert s. induction old as [|a old IH]; intros s.
  - destruct s; simpl; split; eauto.
  - destruct s as [|b s]; simpl.
    + split; [discriminate | intros [rest H]; discriminate H].
    + destruct (ascii_dec a b) as [<- | Hab].
      * rewrite IH. split; intros [rest H].
        -- exists rest. now rewrite H.
        -- injection H as H. now exists rest.
      * split; [discriminate | intros [rest H]; injection H as H _; now contradiction Hab].
Qed.

(** Two ways of cutting one string: one cut comes first. *)
Lemma append_split (u t p q : string) :
  u ++ t = p ++ q ->
  (exists m, p = u ++ m /\ t = m ++ q)
  \/ (exists x m, u = p ++ String x m /\ q = String x m ++ t).
Proof.
  revert p. induction u as [|a u IH]; intros p H.
  - left. exists p. now split.
  - destruct p as [|b p].
    + right. exists a, u. now split.
    + simpl in H. injection H as <- H.
      destruct (IH p H) as [(m & -> & ->) | (x & m & -> & ->)].
      * left. now exists m.
      * right. now exists x, m.
Qed.

Lemma occurs_tail (old s : string) (c : ascii) :
  occurs old s -> occurs old (String c s).
Proof. intros (pre & post & ->). now exists (String c pre), post. Qed.

Lemma replace_from_skip (u old new v : string) :
  replace_from (String.length u) old new (u ++ v) = replace_from 0 old new v.
Proof. induction u as [|c u IH]; [reflexivity | exact IH]. Qed.

(** A string without [old] is left as it is. *)
Lemma replace_from_none (old new s : string) :
  ~ occurs old s -> replace_from 0 old new s = s.
Proof.
  induction s as [|c s IH]; intros Hno; [reflexivity|].
  cbn [replace_from].
  destruct (prefix old (String c s)) eqn:Hpre.
  - apply prefix_iff in Hpre. destruct Hpre as [rest H].
    exfalso. apply Hno. now exists "", rest.
  - rewrite IH; [reflexivity|]. intros H. apply Hno. now apply occurs_tail.
Qed.

Section Unbordered.

(** [old] starts with a character that it does not hold again, so two
    of its occurrences never overlap. *)
Variables (a : ascii) (old' : string).
Hypothesis first_once : forall pre post, old' <> pre ++ String a post.

Let old := String a old'.

Lemma no_straddle (c : ascii) (pre rest : string) :
  ~ occurs old (String c pre) ->
  prefix old (String c pre ++ old ++ rest) = false.
Proof.
  intros Hno. destruct (prefix old (String c pre ++ old ++ rest)) eqn:Hpre;
    [|reflexivity].
  apply prefix_iff in Hpre. destruct Hpre as [t H]. symmetry in H.
  destruct (append_split _ _ _ _ H) as [(m & Hp & _) | (x & m & Hold & Hq)].
  - exfalso. apply Hno. exists "", m. exact Hp.
  - exfalso. unfold old in Hold, Hq. simpl in Hold, Hq.
    injection Hold as _ Hold. injection Hq as <- _.
    exact (first_once _ _ Hold).
Qed.

(** Up to the first occurrence of [old] the string is copied, the
    occurrence is replaced, and the scan goes on behind it. *)
Lemma replace_from_part (new pre rest : string) :
  ~ occurs old pre ->
  replace_from 0 old new (pre ++ old ++ rest)
  = pre ++ new ++ replace_from 0 old new rest.
Proof.
  induction pre as [|c pre IH]; intros Hno.
  - change ("" ++ old ++ rest) with (String a (old' ++ rest)).
    cbn [replace_from].
    assert (Hpre : prefix old (String a (old' ++ rest)) = true)
      by (apply prefix_iff; now exists rest).
    rewrite Hpre. unfold old at 1. cbn [String.length].
    rewrite Nat.sub_succ, Nat.sub_0_r, replace_from_skip. reflexivity.
  - change (String c pre ++ old ++ rest) with (String c (pre ++ old ++ rest)).
    cbn [replace_from].
    change (String c (pre ++ old ++ rest)) with (String c pre ++ old ++ rest).
    rewrite (no_straddle c pre rest Hno).
    rewrite IH; [reflexivity|]. intros H. apply Hno. now apply occurs_tail.
Qed.

(** Every [old] between two parts that hold none becomes [new]. *)
Lemma replace_from_join (new : string) (parts : list string) :
  (forall part, In part parts -> ~ occurs old part) ->
  replace_from 0 old new (join old parts) = join new parts.
Proof.
  induction parts as [|x parts IH]; intros Hno; [reflexivity|].
  destruct parts as [|y parts].
  - apply replace_from_none. apply Hno. now left.
  - change (join old (x :: y :: parts)) with (x ++ old ++ join old (y :: parts)).
    rewrite replace_from_part by (apply Hno; now left).
    rewrite IH by (intros part Hin; apply Hno; now right).
    reflexivity.
Qed.

End Unbordered.

(** Every string is parts without [old], joined by [old]. *)
Lemma join_exists (a : ascii) (old' s : string) :
  exists part parts,
    (forall p, In p (part :: parts) -> ~ occurs (String a old') p)
    /\ s = join (String a old') (part :: parts).
Proof.
  remember (String.length s) as n eqn:Hn.
  revert s Hn. induction n as [n IH] using lt_wf_ind. intros s Hn.
  destruct s as [|c s].
  - exists "", []. split; [|reflexivity].
    intros p [<- | []] (pre & post & H). destruct pre; discriminate H.
  - destruct (prefix (String a old') (String c s)) eqn:Hpre.
    + apply prefix_iff in Hpre. destruct Hpre as [rest Hrest].
      destruct (IH (String.length rest)) with (s := rest)
        as (part & parts & Hno & Hjoin); [|reflexivity|].
      { rewrite Hn, Hrest, length_append. simpl. lia. }
      exists "", (part :: parts). split.
      * intros p [<- | Hin]; [|now apply Hno].
        intros (pre & post & H). destruct pre; discriminate H.
      * rewrite Hrest, Hjoin. reflexivity.
    + destruct (IH (String.length s)) with (s := s)
        as (part & parts & Hno & Hjoin); [|reflexivity|].
      { rewrite Hn. simpl. lia. }
      exists (String c part), parts. split.
      * intros p [<- | Hin]; [|apply Hno; now right].
        intros (pre & post & H). destruct pre as [|c' pre].
        -- assert (Ht : prefix (String a old') (String c s) = true).
           { apply prefix_iff. rewrite Hjoin.
             destruct parts as [|y parts].
             - exists post. simpl in *. exact H.
             - exists (post ++ String a old' ++ join (String a old') (y :: parts)).
               change (join (String a old') (part :: y :: parts))
                 with (part ++ String a old' ++ join (String a old') (y :: parts)).
               change (String c (part ++ String a old' ++ join (String a old') (y :: parts)))
                 with (String c part ++ String a old' ++ join (String a old') (y :: parts)).
               rewrite H. simpl. now rewrite append_assoc. }
           congruence.
        -- injection H as _ H. apply (Hno part); [now left|]. now exists pre, post.
      * rewrite Hjoin. destruct parts; reflexivity.
Qed.

Lemma host_first_once (pre post : string) : "HOST" <> pre ++ String "_" post.
Proof.
  intros H.
  repeat (destruct pre as [|? pre]; simpl in H; [discriminate H | injection H as _ H]).
  destruct pre; discriminate H.
Qed.

End StrFacts.

(* ================================================================== *)
(** ** The principal *)

(** C5: a principal that is given and not empty is returned as it is,
    whatever the configuration holds. Without one ([None] or the empty
    string) the configured principal is returned with every [_HOST] in it
    replaced by the host name: the template is a sequence of parts free of
    [_HOST] joined by [_HOST], and the result is the same parts joined by
    the host name. When no principal is configured either, the call fails
    with a configuration error. *)
Theorem get_kerberos_principal_resolves (w : World) (s : Process) :
  (forall c p,
      get_kerberos_principal w (Some (String c p)) s = (Returned (String c p), s))
  /\ (forall principal template,
        principal = None \/ principal = Some "" ->
        conf_get (conf w) "kerberos" "principal" = Some template ->
        get_kerberos_principal w principal s
        = (Returned (Str.replace template "_HOST" (get_hostname w)), s)
        /\ (exists part parts,
               (forall p, In p (part :: parts) -> ~ Str.occurs "_HOST" p)
               /\ template = Str.join "_HOST" (part :: parts))
        /\ (forall parts,
               (forall p, In p parts -> ~ Str.occurs "_HOST" p) ->
               template = Str.join "_HOST" parts ->
               Str.replace template "_HOST" (get_hostname w)
               = Str.join (get_hostname w) parts))
  /\ (forall principal,
        principal = None \/ principal = Some "" ->
        conf_get (conf w) "kerberos" "principal" = None ->
        get_kerberos_principal w principal s
        = (Raised (ConfigurationError "kerberos" "principal"), s)).
Proof.
  split; [reflexivity|]. split.
  - intros principal template Hnone Hconf. split; [|split].
    + unfold get_kerberos_principal, get_mandatory_value.
      destruct Hnone as [-> | ->]; rewrite Hconf; reflexivity.
    + apply StrFacts.join_exists.
    + intros parts Hno ->.
      exact (StrFacts.replace_from_join "_" "HOST" StrFacts.host_first_once
               (get_hostname w) parts Hno).
  - intros principal Hnone Hconf.
    unfold get_kerberos_principal, get_mandatory_value.
    destruct Hnone as [-> | ->]; rewrite Hconf; reflexivity.
Qed.

Lemma get_kerberos_principal_resolves_witness :
  get_kerberos_principal marked_world None initial_process
  = (Returned "airflow/node1@EXAMPLE.COM", initial_process)
  /\ (exists part parts,
         (forall p, In p (part :: parts) -> ~ Str.occurs "_HOST" p)
         /\ "airflow/_HOST@EXAMPLE.COM" = Str.join "_HOST" (part :: parts))
  /\ (forall parts,
         (forall p, In p parts -> ~ Str.occurs "_HOST" p) ->
         "airflow/_HOST@EXAMPLE.COM" = Str.join "_HOST" parts ->
         Str.replace "airflow/_HOST@EXAMPLE.COM" "_HOST" "node1"
         = Str.join "node1" parts).
Proof.
  destruct (get_kerberos_principal_resolves marked_world initial_process)
    as (_ & Hconfigured & _).
  apply (Hconfigured None "airflow/_HOST@EXAMPLE.COM"); [now left | reflexivity].
Defined.

Example replace_host_samples :
  map (fun template => Str.replace template "_HOST" "node1")
      ["airflow/_HOST@EXAMPLE.COM"; "_HOST/_HOST@_HOST"; "airflow@EXAMPLE.COM";
       "_HOS_HOST_HOST"; ""]
  = ["airflow/node1@EXAMPLE.COM"; "node1/node1@node1"; "airflow@EXAMPLE.COM";
     "_HOSnode1node1"; ""].
Proof. reflexivity. Qed.

(* ================================================================== *)
(** ** Further properties of a renewal *)


Section MoreRenewals.

Variable w : World.

Lemma in_workaround_events kp cc given r0 cmdv r :
  In (Call cmdv r) (workaround_events w kp cc given r0) ->
  cmdv = workaround_cmdv kp cc /\ r = r0.
Proof.
  unfold workaround_events. intros [H | [H | [H | Hin]]]; try discriminate H.
  - injection H as <- <-. now split.
  - destruct (r0 =? 0)%Z; [destruct Hin|]. destruct Hin as [H | []]. discriminate H.
Qed.

(** The workaround, when it is run in a renewal, comes after a successful
    [kinit] and its pause, and its exit status decides. *)
Lemma renewal_workaround principal keytab exit_on_fail s out g delta cmdv r :
  Renewal w principal keytab exit_on_fail s out g delta ->
  In (Call cmdv r) delta ->
  out = workaround_outcome exit_on_fail r
  /\ g = Some true
  /\ exists before c given,
       Configured w principal c
       /\ given_or_configured w (set_principal c) = Some given
       /\ cmdv = workaround_cmdv (set_kinit_path c) (set_ccache c)
       /\ existsb reinit_succeeded before = true
       /\ delta = (before
                     ++ workaround_events w (set_kinit_path c) (set_ccache c)
                                          given r)%list.
Proof.
  intros Hway Hin.
  destruct Hway as [key _ | c subp _ Hne | c given out g delta Hconf Hgiven Hafter].
  - destruct Hin.
  - destruct Hin as [H | [H | [H | []]]]; discriminate H.
  - destruct Hin as [H | [H | Hin]]; try discriminate H.
    destruct Hafter as [Hn | r0 Hn | Hn Hr | data Hn Hr Hm | data r0 Hn Hr Hm].
    + destruct Hin.
    + destruct (in_workaround_events _ _ _ _ _ _ Hin) as [-> ->].
      repeat split.
      exists [reinit_log w (kinit_line c keytab);
              Popen (kinit_line c keytab) 0%Z], c, given.
      split; [exact Hconf|]. now repeat split.
    + destruct Hin as [H | []]. discriminate H.
    + destruct Hin as [H | []]. discriminate H.
    + destruct Hin as [H | Hin]; [discriminate H|].
      destruct (in_workaround_events _ _ _ _ _ _ Hin) as [-> ->].
      repeat split.
      exists [reinit_log w (kinit_line c keytab);
              Popen (kinit_line c keytab) 0%Z; Open (set_ccache c) true], c, given.
      split; [exact Hconf|]. now repeat split.
Qed.

(** How a renewal may end. *)
Lemma renewal_outcome principal keytab exit_on_fail s out g delta :
  Renewal w principal keytab exit_on_fail s out g delta ->
  (forall n, out = Exited n -> exit_on_fail = true /\ n <> 0%Z)
  /\ (exit_on_fail = true -> forall v, out = Returned v ->
      v = 0%Z /\ g <> None /\ existsb reinit_succeeded delta = true).
Proof.
  assert (Hwo : forall r,
             (forall n, workaround_outcome exit_on_fail r = Exited n ->
                        exit_on_fail = true /\ n <> 0%Z)
             /\ (exit_on_fail = true -> forall v,
                   workaround_outcome exit_on_fail r = Returned v -> v = 0%Z)).
  { intros r. unfold workaround_outcome.
    destruct exit_on_fail; cbn [andb]; destruct (Z.eqb_spec r 0) as [Hz | Hnz];
      cbn [negb]; split;
      first [ intros n H; discriminate H
            | intros n H; injection H as <-; now split
            | intros H; discriminate H
            | intros _ v H; discriminate H
            | intros _ v H; injection H as <-; exact Hz ]. }
  intros Hway.
  destruct Hway as [key _ | c subp _ Hne | c given out g delta _ _ Hafter].
  - split; [discriminate | intros _ v H; discriminate H].
  - destruct exit_on_fail; split;
      first [ intros n H; discriminate H
            | intros n H; injection H as <-; now split
            | intros H; discriminate H
            | intros _ v H; discriminate H ].
  - destruct Hafter as [Hn | r0 Hn | Hn Hr | data Hn Hr Hm | data r0 Hn Hr Hm].
    + split; [discriminate|]. intros _ v H. injection H as <-.
      split; [reflexivity | split; [discriminate | reflexivity]].
    + destruct (Hwo r0) as [He Hv]. split; [exact He|].
      intros Ht v H. split; [now apply Hv | split; [discriminate | reflexivity]].
    + split; [discriminate | intros _ v H; discriminate H].
    + split; [discriminate|]. intros _ v H. injection H as <-.
      split; [reflexivity | split; [discriminate | reflexivity]].
    + destruct (Hwo r0) as [He Hv]. split; [exact He|].
      intros Ht v H. split; [now apply Hv | split; [discriminate | reflexivity]].
Qed.

(** What the inspection of the ticket cache found is what the global
    holds afterwards. *)
Lemma renewal_detection principal keytab exit_on_fail s out g delta path :
  Renewal w principal keytab exit_on_fail s out g delta ->
  In (Open path true) delta ->
  NEED_KRB181_WORKAROUND s = None
  /\ exists before data,
       read_binary w (history s ++ before)%list path = Some data
       /\ existsb reinit_succeeded before = true
       /\ g = Some (Bytes.contains marker data)
       /\ count is_call delta = (if Bytes.contains marker data then 1 else 0).
Proof.
  intros Hway Hin.
  pose proof (renewal_calls w _ _ _ _ _ _ _ Hway) as Hc.
  destruct Hway as [key _ | c subp _ Hne | c given out g delta Hconf Hgiven Hafter].
  - destruct Hin.
  - destruct Hin as [H | [H | [H | []]]]; discriminate H.
  - cbn [existsb reinit_log reinit_succeeded orb] in Hc.
    destruct Hin as [H | [H | Hin]]; try discriminate H.
    destruct Hafter as [Hn | r0 Hn | Hn Hr | data Hn Hr Hm | data r0 Hn Hr Hm].
    + destruct Hin.
    + unfold workaround_events in Hin. destruct (r0 =? 0)%Z;
        repeat (destruct Hin as [H | Hin]; [discriminate H|]); destruct Hin.
    + destruct Hin as [H | []]. discriminate H.
    + destruct Hin as [H | []]. injection H as Hpath. rewrite Hpath in Hr.
      rewrite need_advance in Hn. split; [exact Hn|].
      exists [reinit_log w (kinit_line c keytab);
              Popen (kinit_line c keytab) 0%Z], data.
      rewrite Hm. now repeat split.
    + assert (Hpath : set_ccache c = path).
      { destruct Hin as [H | Hin]; [now injection H|].
        unfold workaround_events in Hin. destruct (r0 =? 0)%Z;
          repeat (destruct Hin as [H | Hin]; [discriminate H|]); destruct Hin. }
      rewrite Hpath in Hr.
      rewrite need_advance in Hn. split; [exact Hn|].
      exists [reinit_log w (kinit_line c keytab);
              Popen (kinit_line c keytab) 0%Z], data.
      rewrite Hm. now repeat split.
Qed.

End MoreRenewals.

(** X1: when the workaround is run in a renewal and exits with [r], the
    renewal ends the process with [sys.exit(r)] if [exit_on_fail] is true
    and [r] is not 0, and returns [r] otherwise; the global is [True]; and
    before the workaround came a [kinit] from the keytab that exited with 0
    and the pause of a second and a half, and after it nothing but its own
    error line, which shows the principal resolved for [kinit] (the
    configured one, unresolved, if that is empty). *)
Theorem renew_from_kt_workaround_status (w : World) (principal : option string)
        (keytab : string) (exit_on_fail : bool) (s s' : Process)
        (out : Outcome Z) (cmdv : list string) (r : Z) :
  renew_from_kt w principal keytab exit_on_fail s = (out, s') ->
  In (Call cmdv r) (since (history s) (history s')) ->
  out = (if exit_on_fail && negb (r =? 0)%Z then Exited r else Returned r)
  /\ NEED_KRB181_WORKAROUND s' = Some true
  /\ exists before p given kp cc,
       conf_get (conf w) "kerberos" "kinit_path" = Some kp
       /\ conf_get (conf w) "kerberos" "ccache" = Some cc
       /\ get_kerberos_principal w principal s = (Returned p, s)
       /\ given_or_configured w p = Some given
       /\ cmdv = [kp; "-c"; cc; "-R"]
       /\ existsb reinit_succeeded before = true
       /\ since (history s) (history s')
          = (before
               ++ Sleep (3 # 2) :: workaround_log kp cc :: Call cmdv r
               :: (if (r =? 0)%Z then [] else [workaround_failure_log w given cc]))%list.
Proof.
  intros Hrun Hin.
  destruct (renew_from_kt_way w _ _ _ _ _ _ Hrun) as (delta & _ & Hsince & Hway).
  rewrite Hsince in Hin |- *.
  destruct (renewal_workaround w _ _ _ _ _ _ _ _ _ Hway Hin)
    as (Hout & Hg & before & c & given & Hconf & Hgiven & Hcmdv & Hok & Hdelta).
  split; [exact Hout|]. split; [exact Hg|].
  destruct Hconf as (_ & Hp & _ & _ & Hkp & Hcc).
  exists before, (set_principal c), given, (set_kinit_path c), (set_ccache c).
  subst cmdv. now repeat split.
Qed.

Lemma renew_from_kt_workaround_status_witness :
  fst tolerant_renewal = Returned 3%Z
  /\ NEED_KRB181_WORKAROUND (snd tolerant_renewal) = Some true
  /\ exists before p given kp cc,
       conf_get (conf workaround_fails_world) "kerberos" "kinit_path" = Some kp
       /\ conf_get (conf workaround_fails_world) "kerberos" "ccache" = Some cc
       /\ get_kerberos_principal workaround_fails_world (Some "airflow") initial_process
          = (Returned p, initial_process)
       /\ given_or_configured workaround_fails_world p = Some given
       /\ ["kinit"; "-c"; "/tmp/airflow_krb5_ccache"; "-R"] = [kp; "-c"; cc; "-R"]
       /\ existsb reinit_succeeded before = true
       /\ since [] (history (snd tolerant_renewal))
          = (before
               ++ Sleep (3 # 2) :: workaround_log kp cc
               :: Call ["kinit"; "-c"; "/tmp/airflow_krb5_ccache"; "-R"] 3%Z
               :: [workaround_failure_log workaround_fails_world given cc])%list.
Proof.
  apply (renew_from_kt_workaround_status workaround_fails_world (Some "airflow")
           "airflow.keytab" false initial_process (snd tolerant_renewal)
           (fst tolerant_renewal)
           ["kinit"; "-c"; "/tmp/airflow_krb5_ccache"; "-R"] 3%Z).
  - reflexivity.
  - vm_compute. do 5 right. left. reflexivity.
Defined.

(** X2: [renew_from_kt] ends the process only when [exit_on_fail] is true,
    and never with status 0; and with [exit_on_fail] true whatever it
    returns is 0, after a [kinit] that exited with 0 and with the global
    settled. *)
Theorem renew_from_kt_exit_discipline (w : World) (principal : option string)
        (keytab : string) (exit_on_fail : bool) (s : Process) :
  (forall n,
      fst (renew_from_kt w principal keytab exit_on_fail s) = Exited n ->
      exit_on_fail = true /\ n <> 0%Z)
  /\ (forall v,
        fst (renew_from_kt w principal keytab true s) = Returned v ->
        v = 0%Z
        /\ NEED_KRB181_WORKAROUND (snd (renew_from_kt w principal keytab true s)) <> None
        /\ existsb reinit_succeeded
             (since (history s)
                    (history (snd (renew_from_kt w principal keytab true s)))) = true).
Proof.
  split.
  - intros n Hout.
    destruct (renew_from_kt w principal keytab exit_on_fail s) as [out s'] eqn:Hrun.
    destruct (renew_from_kt_way w _ _ _ _ _ _ Hrun) as (delta & _ & _ & Hway).
    exact (proj1 (renewal_outcome w _ _ _ _ _ _ _ Hway) n Hout).
  - intros v Hout.
    destruct (renew_from_kt w principal keytab true s) as [out s'] eqn:Hrun.
    destruct (renew_from_kt_way w _ _ _ _ _ _ Hrun) as (delta & _ & Hsince & Hway).
    cbn [snd fst] in *. rewrite Hsince.
    exact (proj2 (renewal_outcome w _ _ _ _ _ _ _ Hway) eq_refl v Hout).
Qed.

(** X3: what the first inspection of the ticket cache finds is what the
    global holds from then on, and decides about the workaround: the global
    was [None], the file was read after a [kinit] that exited with 0, the
    global becomes whether the marker occurs in what was read, and the
    workaround is run once if it does and not at all if it does not. *)
Theorem renew_from_kt_detection_result (w : World) (principal : option string)
        (keytab : string) (exit_on_fail : bool) (s s' : Process)
        (out : Outcome Z) (path : string) :
  renew_from_kt w principal keytab exit_on_fail s = (out, s') ->
  In (Open path true) (since (history s) (history s')) ->
  NEED_KRB181_WORKAROUND s = None
  /\ exists before data,
       read_binary w (history s ++ before)%list path = Some data
       /\ existsb reinit_succeeded before = true
       /\ NEED_KRB181_WORKAROUND s'
          = Some (Bytes.contains (list_byte_of_string "X-CACHECONF:") data)
       /\ count is_call (since (history s) (history s'))
          = (if Bytes.contains (list_byte_of_string "X-CACHECONF:") data then 1 else 0).
Proof.
  intros Hrun Hin.
  destruct (renew_from_kt_way w _ _ _ _ _ _ Hrun) as (delta & _ & Hsince & Hway).
  rewrite Hsince in Hin |- *.
  exact (renewal_detection w _ _ _ _ _ _ _ _ Hway Hin).
Qed.

Lemma renew_from_kt_detection_result_witness :
  NEED_KRB181_WORKAROUND initial_process = None
  /\ exists before data,
       read_binary marked_world ([] ++ before)%list "/tmp/airflow_krb5_ccache" = Some data
       /\ existsb reinit_succeeded before = true
       /\ NEED_KRB181_WORKAROUND (snd first_renewal)
          = Some (Bytes.contains (list_byte_of_string "X-CACHECONF:") data)
       /\ count is_call (since [] (history (snd first_renewal)))
          = (if Bytes.contains (list_byte_of_string "X-CACHECONF:") data then 1 else 0).
Proof.
  apply (renew_from_kt_detection_result marked_world None "airflow.keytab" true
           initial_process (snd first_renewal) (fst first_renewal)
           "/tmp/airflow_krb5_ccache").
  - reflexivity.
  - vm_compute. right. right. left. reflexivity.
Defined.

(* ================================================================== *)
(** ** Missing configuration *)

(** X4: a renewal that misses a configuration value raises before it logs
    or runs anything, and names the first value missing in the order the
    code reads them: [reinit_frequency], the principal (read only when none
    is given), [forwardable], [include_ip], [kinit_path], [ccache]. With
    all of them read and a principal given, [kinit] is run with that
    principal, whatever the configured one is. *)
Theorem renew_from_kt_missing_configuration (w : World) (keytab : string)
        (exit_on_fail : bool) (s : Process) :
  (forall principal,
      conf_getint (conf w) "kerberos" "reinit_frequency" = None ->
      renew_from_kt w principal keytab exit_on_fail s
      = (Raised (ConfigurationError "kerberos" "reinit_frequency"), s))
  /\ (forall principal n,
        conf_getint (conf w) "kerberos" "reinit_frequency" = Some n ->
        principal = None \/ principal = Some "" ->
        conf_get (conf w) "kerberos" "principal" = None ->
        renew_from_kt w principal keytab exit_on_fail s
        = (Raised (ConfigurationError "kerberos" "principal"), s))
  /\ (forall principal n p,
        conf_getint (conf w) "kerberos" "reinit_frequency" = Some n ->
        get_kerberos_principal w principal s = (Returned p, s) ->
        conf_getboolean (conf w) "kerberos" "forwardable" = None ->
        renew_from_kt w principal keytab exit_on_fail s
        = (Raised (ConfigurationError "kerberos" "forwardable"), s))
  /\ (forall principal n p fw,
        conf_getint (conf w) "kerberos" "reinit_frequency" = Some n ->
        get_kerberos_principal w principal s = (Returned p, s) ->
        conf_getboolean (conf w) "kerberos" "forwardable" = Some fw ->
        conf_getboolean (conf w) "kerberos" "include_ip" = None ->
        renew_from_kt w principal keytab exit_on_fail s
        = (Raised (ConfigurationError "kerberos" "include_ip"), s))
  /\ (forall principal n p fw ip,
        conf_getint (conf w) "kerberos" "reinit_frequency" = Some n ->
        get_kerberos_principal w principal s = (Returned p, s) ->
        conf_getboolean (conf w) "kerberos" "forwardable" = Some fw ->
        conf_getboolean (conf w) "kerberos" "include_ip" = Some ip ->
        conf_get (conf w) "kerberos" "kinit_path" = None ->
        renew_from_kt w principal keytab exit_on_fail s
        = (Raised (ConfigurationError "kerberos" "kinit_path"), s))
  /\ (forall principal n p fw ip kp,
        conf_getint (conf w) "kerberos" "reinit_frequency" = Some n ->
        get_kerberos_principal w principal s = (Returned p, s) ->
        conf_getboolean (conf w) "kerberos" "forwardable" = Some fw ->
        conf_getboolean (conf w) "kerberos" "include_ip" = Some ip ->
        conf_get (conf w) "kerberos" "kinit_path" = Some kp ->
        conf_get (conf w) "kerberos" "ccache" = None ->
        renew_from_kt w principal keytab exit_on_fail s
        = (Raised (ConfigurationError "kerberos" "ccache"), s))
  /\ (forall c p n fw ip kp cc,
        conf_getint (conf w) "kerberos" "reinit_frequency" = Some n ->
        conf_getboolean (conf w) "kerberos" "forwardable" = Some fw ->
        conf_getboolean (conf w) "kerberos" "include_ip" = Some ip ->
        conf_get (conf w) "kerberos" "kinit_path" = Some kp ->
        conf_get (conf w) "kerberos" "ccache" = Some cc ->
        exists status,
          filter is_popen
                 (since (history s)
                        (history (snd (renew_from_kt w (Some (String c p)) keytab
                                                     exit_on_fail s))))
          = [Popen [kp; if fw then "-f" else "-F"; if ip then "-a" else "-A";
                    "-r"; Str.of_int n ++ "m"; "-k"; "-t"; keytab; "-c"; cc;
                    String c p]
                   status]).
Proof.
  assert (Hres : forall principal p,
             get_kerberos_principal w principal s = (Returned p, s) ->
             principal_given principal
             || match conf_get (conf w) "kerberos" "principal" with
                | Some _ => true | None => false end = true).
  { intros principal p Hp.
    destruct (principal_given principal) eqn:Hg; [reflexivity|]. simpl.
    destruct (conf_get (conf w) "kerberos" "principal") eqn:Hc; [reflexivity|].
    assert (Hm : get_kerberos_principal w principal s
                 = (Raised (ConfigurationError "kerberos" "principal"), s))
      by now apply get_kerberos_principal_missing.
    rewrite Hp in Hm. discriminate Hm. }
  split; [|split; [|split; [|split; [|split; [|split]]]]].
  - intros principal Hn. apply renew_from_kt_unconfigured.
    unfold first_missing. now rewrite Hn.
  - intros principal n Hn Hnone Hconf. apply renew_from_kt_unconfigured.
    unfold first_missing. rewrite Hn, Hconf. now destruct Hnone as [-> | ->].
  - intros principal n p Hn Hp Hfw. apply renew_from_kt_unconfigured.
    unfold first_missing. now rewrite Hn, (Hres _ _ Hp), Hfw.
  - intros principal n p fw Hn Hp Hfw Hip. apply renew_from_kt_unconfigured.
    unfold first_missing. now rewrite Hn, (Hres _ _ Hp), Hfw, Hip.
  - intros principal n p fw ip Hn Hp Hfw Hip Hkp. apply renew_from_kt_unconfigured.
    unfold first_missing. now rewrite Hn, (Hres _ _ Hp), Hfw, Hip, Hkp.
  - intros principal n p fw ip kp Hn Hp Hfw Hip Hkp Hcc.
    apply renew_from_kt_unconfigured.
    unfold first_missing. now rewrite Hn, (Hres _ _ Hp), Hfw, Hip, Hkp, Hcc.
  - intros c p n fw ip kp cc Hn Hfw Hip Hkp Hcc.
    destruct (renew_from_kt w (Some (String c p)) keytab exit_on_fail s)
      as [out s'] eqn:Hrun.
    destruct (renew_from_kt_way w _ _ _ _ _ _ Hrun) as (delta & _ & Hsince & Hway).
    cbn [snd]. rewrite Hsince.
    pose (c0 := {| set_frequency := n; set_principal := String c p;
                   set_forwardable := fw; set_include_ip := ip;
                   set_kinit_path := kp; set_ccache := cc |}).
    assert (Hc : Configured w (Some (String c p)) c0) by (repeat split; assumption).
    destruct Hway as [key Hun | c' subp Hc' Hne | c' given out g delta Hc' Hgiven Hafter].
    + assert (Hnone : first_missing w (Some (String c p)) = None)
        by (apply first_missing_none; now exists c0).
      congruence.
    + rewrite <- (configured_unique w _ _ _ Hc Hc'). now exists (returncode subp).
    + rewrite <- (configured_unique w _ _ _ Hc Hc').
      destruct (after_reinit_counts w _ _ _ _ _ _ _ _ Hafter) as [Hpo _].
      exists 0%Z. cbn [filter is_popen reinit_log].
      now rewrite (count_zero_filter _ _ Hpo).
Qed.

Lemma renew_from_kt_missing_configuration_witness :
  renew_from_kt no_kinit_world None "airflow.keytab" true initial_process
  = (Raised (ConfigurationError "kerberos" "kinit_path"), initial_process).
Proof.
  destruct (renew_from_kt_missing_configuration no_kinit_world "airflow.keytab" true
              initial_process) as (_ & _ & _ & _ & Hkinit & _).
  apply (Hkinit None 3600%Z "airflow/node1@EXAMPLE.COM" true false); reflexivity.
Defined.

(** The reads come in this order: whichever value is missing first is the
    one named. *)
Example first_missing_samples :
  let missing (keys : list string) : World :=
    {| conf := {| conf_get := fun section key =>
                    if existsb (String.eqb key) keys then None
                    else conf_get demo_conf section key;
                  conf_getint := fun section key =>
                    if existsb (String.eqb key) keys then None
                    else conf_getint demo_conf section key;
                  conf_getboolean := fun section key =>
                    if existsb (String.eqb key) keys then None
                    else conf_getboolean demo_conf section key |};
       get_hostname := "node1";
       shlex_quote := fun s => s;
       spawn := spawn marked_world;
       read_binary := read_binary marked_world;
       pause_limit := fun _ => demo_limit;
       pause_limit_ok := fun _ => eq_refl |} in
  map (fun keys => fst (renew_from_kt (missing keys) None "kt" true initial_process))
      [["ccache"; "kinit_path"; "include_ip"; "forwardable"; "principal";
        "reinit_frequency"];
       ["ccache"; "kinit_path"; "include_ip"; "forwardable"; "principal"];
       ["ccache"; "kinit_path"; "include_ip"; "forwardable"];
       ["ccache"; "kinit_path"; "include_ip"];
       ["ccache"; "kinit_path"];
       ["ccache"]]
  = map (fun key => Raised (ConfigurationError "kerberos" key))
        ["reinit_frequency"; "principal"; "forwardable"; "include_ip";
         "kinit_path"; "ccache"].
Proof. reflexivity. Qed.

(* ================================================================== *)
(** ** The workaround and the detection on their own *)

(** X5: [perform_krb181_workaround] leaves the global alone, never ends the
    process, never runs [kinit] from the keytab and never opens the ticket
    cache. When its child process has run and exited with [r], that was the
    configured [kinit_path] with [-c], the configured [ccache] and [-R], run
    once. With [r] at 0 it returns 0 and leaves no error line. With [r] not
    0 it logs the error line and returns [r] if a principal is given or
    configured; with none given and none configured, [conf.get] raises the
    configuration error after the child process and nothing more is logged.
    With [kinit_path] or [ccache] missing it raises before anything is
    logged or run. *)
Theorem perform_krb181_workaround_contained (w : World) (principal : string)
        (s s' : Process) (out : Outcome Z) :
  perform_krb181_workaround w principal s = (out, s') ->
  NEED_KRB181_WORKAROUND s' = NEED_KRB181_WORKAROUND s
  /\ (forall n, out <> Exited n)
  /\ count is_popen (since (history s) (history s')) = 0
  /\ count is_open (since (history s) (history s')) = 0
  /\ (forall cmdv r,
        In (Call cmdv r) (since (history s) (history s')) ->
        exists kp cc,
          conf_get (conf w) "kerberos" "kinit_path" = Some kp
          /\ conf_get (conf w) "kerberos" "ccache" = Some cc
          /\ cmdv = [kp; "-c"; cc; "-R"]
          /\ count is_call (since (history s) (history s')) = 1
          /\ (r = 0%Z ->
              out = Returned 0%Z
              /\ since (history s) (history s') = [workaround_log kp cc; Call cmdv 0%Z])
          /\ (r <> 0%Z ->
              match given_or_configured w principal with
              | Some given =>
                  out = Returned r
                  /\ since (history s) (history s')
                     = [workaround_log kp cc; Call cmdv r;
                        Log ERROR workaround_error
                            [given ++ "/" ++ get_hostname w; cc;
                             given ++ "/" ++ get_hostname w]]
              | None =>
                  out = Raised (ConfigurationError "kerberos" "principal")
                  /\ since (history s) (history s')
                     = [workaround_log kp cc; Call cmdv r]
              end))
  /\ (conf_get (conf w) "kerberos" "kinit_path" = None
      \/ conf_get (conf w) "kerberos" "ccache" = None ->
      (exists key, out = Raised (ConfigurationError "kerberos" key)) /\ s' = s).
Proof.
  intros Hrun.
  destruct (conf_get (conf w) "kerberos" "kinit_path") as [kp|] eqn:Hkp;
    [destruct (conf_get (conf w) "kerberos" "ccache") as [cc|] eqn:Hcc|].
  - rewrite (perform_krb181_workaround_configured w principal s kp cc Hkp Hcc) in Hrun.
    cbv zeta in Hrun.
    set (r0 := returncode (spawn w (history s ++ [workaround_log kp cc])%list
                                 (workaround_cmdv kp cc))) in *.
    assert (Hshape :
              exists tail,
                s' = advance s (NEED_KRB181_WORKAROUND s)
                             (workaround_log kp cc :: Call (workaround_cmdv kp cc) r0
                                :: tail)
                /\ (tail = [] \/ exists l m a, tail = [Log l m a])
                /\ (forall n, out <> Exited n)).
    { destruct (r0 =? 0)%Z.
      - injection Hrun as <- <-. exists []. repeat split; [now left | discriminate].
      - destruct (given_or_configured w principal) as [given|];
          injection Hrun as <- <-.
        + eexists. split; [reflexivity|].
          split; [right; unfold workaround_failure_log; eauto | discriminate].
        + exists []. repeat split; [now left | discriminate]. }
    destruct Hshape as (tail & Hs' & Htail & Hexit).
    assert (Hcounts : count is_popen (since (history s) (history s')) = 0
                      /\ count is_open (since (history s) (history s')) = 0
                      /\ count is_call (since (history s) (history s')) = 1).
    { rewrite Hs', since_advance.
      destruct Htail as [-> | (l & m & a & ->)]; repeat split; reflexivity. }
    destruct Hcounts as (Hpo & Hop & Hca).
    split; [now rewrite Hs'|]. split; [exact Hexit|].
    split; [exact Hpo|]. split; [exact Hop|]. split.
    + intros cmdv r Hin. exists kp, cc.
      split; [reflexivity|]. split; [reflexivity|].
      assert (Hcall : cmdv = workaround_cmdv kp cc /\ r = r0).
      { rewrite Hs', since_advance in Hin.
        destruct Hin as [H | [H | Hin]]; [discriminate H | |].
        - injection H as <- <-. now split.
        - destruct Htail as [-> | (l & m & a & ->)]; [destruct Hin|].
          destruct Hin as [H | []]. discriminate H. }
      destruct Hcall as [-> ->].
      split; [reflexivity|]. split; [exact Hca|]. split.
      * intros Hr. rewrite Hr in Hrun. cbn [Z.eqb] in Hrun.
        injection Hrun as <- <-. rewrite since_advance. now split.
      * intros Hr. apply Z.eqb_neq in Hr. rewrite Hr in Hrun.
        destruct (given_or_configured w principal) as [given|];
          injection Hrun as <- <-; rewrite since_advance; now split.
    + intros [H | H]; discriminate H.
  - destruct (perform_krb181_workaround_unconfigured w principal s) as [key Hkey];
      [now right|].
    rewrite Hkey in Hrun. injection Hrun as <- <-. rewrite since_refl.
    repeat split; try discriminate; try (intros cmdv r []); eauto.
  - destruct (perform_krb181_workaround_unconfigured w principal s) as [key Hkey];
      [now left|].
    rewrite Hkey in Hrun. injection Hrun as <- <-. rewrite since_refl.
    repeat split; try discriminate; try (intros cmdv r []); eauto.
Qed.

Lemma perform_krb181_workaround_contained_witness :
  NEED_KRB181_WORKAROUND (snd failing_workaround) = None
  /\ (forall n, fst failing_workaround <> Exited n)
  /\ count is_popen (since [] (history (snd failing_workaround))) = 0
  /\ count is_open (since [] (history (snd failing_workaround))) = 0
  /\ (forall cmdv r,
        In (Call cmdv r) (since [] (history (snd failing_workaround))) ->
        exists kp cc,
          conf_get (conf failing_world) "kerberos" "kinit_path" = Some kp
          /\ conf_get (conf failing_world) "kerberos" "ccache" = Some cc
          /\ cmdv = [kp; "-c"; cc; "-R"]
          /\ count is_call (since [] (history (snd failing_workaround))) = 1
          /\ (r = 0%Z ->
              fst failing_workaround = Returned 0%Z
              /\ since [] (history (snd failing_workaround))
                 = [workaround_log kp cc; Call cmdv 0%Z])
          /\ (r <> 0%Z ->
              match given_or_configured failing_world "airflow" with
              | Some given =>
                  fst failing_workaround = Returned r
                  /\ since [] (history (snd failing_workaround))
                     = [workaround_log kp cc; Call cmdv r;
                        Log ERROR workaround_error
                            [given ++ "/" ++ get_hostname failing_world; cc;
                             given ++ "/" ++ get_hostname failing_world]]
              | None =>
                  fst failing_workaround = Raised (ConfigurationError "kerberos" "principal")
                  /\ since [] (history (snd failing_workaround))
                     = [workaround_log kp cc; Call cmdv r]
              end))
  /\ (conf_get (conf failing_world) "kerberos" "kinit_path" = None
      \/ conf_get (conf failing_world) "kerberos" "ccache" = None ->
      (exists key, fst failing_workaround = Raised (ConfigurationError "kerberos" key))
      /\ snd failing_workaround = initial_process).
Proof.
  apply (perform_krb181_workaround_contained failing_world "airflow" initial_process
           (snd failing_workaround) (fst failing_workaround)).
  reflexivity.
Defined.

(** X6: [detect_conf_var] opens nothing but the configured [ccache], once,
    and leaves the global alone; a file that cannot be read raises the I/O
    error with that path, and a missing [ccache] raises the configuration
    error before any file is opened. *)
Theorem detect_conf_var_contained (w : World) (s : Process) :
  NEED_KRB181_WORKAROUND (snd (detect_conf_var w s)) = NEED_KRB181_WORKAROUND s
  /\ (conf_get (conf w) "kerberos" "ccache" = None ->
      detect_conf_var w s = (Raised (ConfigurationError "kerberos" "ccache"), s))
  /\ (forall cc,
        conf_get (conf w) "kerberos" "ccache" = Some cc ->
        exists readable,
          since (history s) (history (snd (detect_conf_var w s))) = [Open cc readable]
          /\ (readable = false ->
              fst (detect_conf_var w s) = Raised (IOError cc)
              /\ read_binary w (history s) cc = None)
          /\ (readable = true ->
              exists data,
                read_binary w (history s) cc = Some data
                /\ fst (detect_conf_var w s) = Returned (Bytes.contains marker data))).
Proof.
  unfold detect_conf_var, get_mandatory_value. split; [|split].
  - destruct (conf_get (conf w) "kerberos" "ccache") as [cc|]; [|reflexivity].
    unfold bind, ret, open_rb_read.
    destruct (read_binary w (history s) cc); reflexivity.
  - intros Hcc. now rewrite Hcc.
  - intros cc Hcc. rewrite Hcc. unfold bind, ret, open_rb_read.
    destruct (read_binary w (history s) cc) as [data|] eqn:Hread; cbn [fst snd history].
    + exists true. rewrite since_app. split; [reflexivity|].
      split; [discriminate|]. intros _. now exists data.
    + exists false. rewrite since_app. split; [reflexivity|].
      split; [now split | discriminate].
Qed.

Lemma detect_conf_var_contained_witness :
  exists readable,
    since [] (history (snd (detect_conf_var unreadable_world initial_process)))
    = [Open "/tmp/airflow_krb5_ccache" readable]
    /\ (readable = false ->
        fst (detect_conf_var unreadable_world initial_process)
        = Raised (IOError "/tmp/airflow_krb5_ccache")
        /\ read_binary unreadable_world [] "/tmp/airflow_krb5_ccache" = None)
    /\ (readable = true ->
        exists data,
          read_binary unreadable_world [] "/tmp/airflow_krb5_ccache" = Some data
          /\ fst (detect_conf_var unreadable_world initial_process)
             = Returned (Bytes.contains marker data)).
Proof.
  destruct (detect_conf_var_contained unreadable_world initial_process)
    as (_ & _ & Hopen).
  apply (Hopen "/tmp/airflow_krb5_ccache"). reflexivity.
Defined.

(* ================================================================== *)
(** ** The ways through the loop of the standard mode *)


Section Loop.

Variable w : World.

(** A negative length is refused: as negative, or as one the library
    cannot convert when it is below -9223372036 seconds. *)
Lemma time_sleep_refused (n : Z) (s : Process) :
  (n < 0)%Z ->
  time_sleep w (inject_Z n) s
  = (Raised (if (-9223372036 <=? n)%Z
             then ValueError "sleep length must be non-negative"
             else OverflowError), s).
Proof.
  intros H. unfold time_sleep.
  destruct (Z.leb_spec (-9223372036) n) as [Hlow | Hlow].
  - assert (H1 : Qle_bool PyTime_MIN (inject_Z n) = true)
      by (apply Qle_bool_iff; unfold Qle, PyTime_MIN, inject_Z; simpl; lia).
    assert (H2 : Qle_bool (inject_Z n) PyTime_MAX = true)
      by (apply Qle_bool_iff; unfold Qle, PyTime_MAX, inject_Z; simpl; lia).
    assert (H3 : Qle_bool 0 (inject_Z n) = false).
    { destruct (Qle_bool 0 (inject_Z n)) eqn:Hq; [|reflexivity].
      apply Qle_bool_iff in Hq. unfold Qle, inject_Z in Hq. simpl in Hq. lia. }
    now rewrite H1, H2, H3.
  - assert (H1 : Qle_bool PyTime_MIN (inject_Z n) = false).
    { destruct (Qle_bool PyTime_MIN (inject_Z n)) eqn:Hq; [|reflexivity].
      apply Qle_bool_iff in Hq. unfold Qle, PyTime_MIN, inject_Z in Hq.
      simpl in Hq. lia. }
    now rewrite H1.
Qed.

Lemma pause_refused (n : Z) (s : Process) :
  conf_getint (conf w) "kerberos" "reinit_frequency" = Some n ->
  (n < 0)%Z ->
  pause w s
  = (Raised (if (-9223372036 <=? n)%Z
             then ValueError "sleep length must be non-negative"
             else OverflowError), s).
Proof.
  intros Hn Hneg. unfold pause, get_int. rewrite Hn.
  unfold bind at 1. unfold ret at 1. now apply time_sleep_refused.
Qed.

Lemma forever_standard_way principal keytab fuel :
  forall s, exists out g delta,
    forever fuel (standard_round w principal keytab) s = (out, advance s g delta)
    /\ StandardLoop w principal keytab fuel s out g delta.
Proof.
  induction fuel as [|n IH]; intros s.
  - exists Running, (NEED_KRB181_WORKAROUND s), []. rewrite advance_nil.
    split; [reflexivity | apply loop_cut].
  - cbn [forever]. unfold bind at 1.
    change (standard_round w principal keytab s)
      with ((renew_from_kt w principal keytab true ;; pause w) s).
    unfold bind at 1.
    destruct (renew_from_kt_sound w principal keytab true s)
      as (out1 & g1 & d1 & Hrun & Hway).
    rewrite Hrun.
    destruct (renewal_shape w _ _ _ _ _ _ _ Hway) as [Hnr _].
    destruct out1 as [v | st | e | ]; [| | |now contradiction Hnr].
    + destruct (pause_cases w (advance s g1 d1)) as [(m & Hm & Hs) | [e Hs]].
      * rewrite need_advance, advance_advance in Hs. rewrite Hs.
        destruct (IH (advance s g1 (d1 ++ [Sleep (inject_Z m)])))
          as (out & g & delta & Hloop & Hl).
        rewrite Hloop, advance_advance.
        do 3 eexists. split; [reflexivity|].
        now apply loop_round with (v := v) (g1 := g1).
      * rewrite Hs.
        do 3 eexists. split; [reflexivity|].
        now apply loop_pause_refused with (v := v).
    + exists (Exited st), g1, d1. split; [reflexivity|].
      apply (loop_renewal_ended w principal keytab n s (Exited st) g1 d1 Hway).
      discriminate.
    + exists (Raised e), g1, d1. split; [reflexivity|].
      apply (loop_renewal_ended w principal keytab n s (Raised e) g1 d1 Hway).
      discriminate.
Qed.

Lemma run_way principal keytab mode fuel s :
  exists out g delta,
    run w fuel principal keytab mode s = (out, advance s g delta)
    /\ Run w principal keytab mode fuel s out g delta.
Proof.
  destruct keytab as [|c k].
  - do 3 eexists. split; [reflexivity | apply run_no_keytab].
  - rewrite run_with_keytab. destruct mode.
    + destruct (forever_standard_way principal (String c k) fuel (started s STANDARD))
        as (out & g & delta & Hloop & Hl).
      rewrite Hloop. unfold started at 1. rewrite advance_advance.
      do 3 eexists. split; [reflexivity | now apply run_loop].
    + destruct (renew_from_kt_sound w principal (String c k) true (started s ONE_TIME))
        as (out & g & delta & Hrun & Hway).
      rewrite Hrun. cbn [fst snd]. unfold started at 1. rewrite advance_advance.
      do 3 eexists. split; [reflexivity | now apply run_one_renewal].
Qed.

(** The ticket cache is opened at most once in the loop, and not at all
    when the global is set. *)
Lemma standard_loop_opens principal keytab fuel s out g delta :
  StandardLoop w principal keytab fuel s out g delta ->
  count is_open delta
  <= match NEED_KRB181_WORKAROUND s with None => 1 | Some _ => 0 end.
Proof.
  intros Hl.
  induction Hl as [s | n s v g1 d1 m out g delta Hway Hfreq Hpause Hl IH
                  | n s out1 g1 d1 Hway Hnot | n s v g1 d1 e Hway Hpause].
  - unfold count. simpl. lia.
  - pose proof (renewal_opens w _ _ _ _ _ _ _ Hway) as Ho.
    destruct (proj2 (renewal_outcome w _ _ _ _ _ _ _ Hway) eq_refl v eq_refl)
      as (_ & Hg & Hok).
    rewrite Hok in Ho. rewrite need_advance in IH.
    destruct g1 as [b|]; [|now contradiction Hg].
    rewrite !count_app, Ho.
    assert (Hs : count is_open [Sleep (inject_Z m)] = 0) by reflexivity.
    rewrite Hs. destruct (NEED_KRB181_WORKAROUND s); lia.
  - rewrite (renewal_opens w _ _ _ _ _ _ _ Hway).
    destruct (existsb reinit_succeeded d1), (NEED_KRB181_WORKAROUND s); lia.
  - rewrite (renewal_opens w _ _ _ _ _ _ _ Hway).
    destruct (existsb reinit_succeeded d1), (NEED_KRB181_WORKAROUND s); lia.
Qed.

(** The loop ends the process only with a status other than 0. *)
Lemma standard_loop_exit principal keytab fuel s out g delta :
  StandardLoop w principal keytab fuel s out g delta ->
  forall n, out = Exited n -> n <> 0%Z.
Proof.
  intros Hl.
  induction Hl as [s | n s v g1 d1 m out g delta Hway Hfreq Hpause Hl IH
                  | n s out1 g1 d1 Hway Hnot | n s v g1 d1 e Hway Hpause];
    intros st Hst; try discriminate Hst.
  - now apply IH.
  - destruct out1; try discriminate Hst. injection Hst as ->.
    exact (proj2 (proj1 (renewal_outcome w _ _ _ _ _ _ _ Hway) st eq_refl)).
Qed.

(** A [kinit] from the keytab that fails in the loop ends the process. *)
Lemma standard_loop_tool_failed principal keytab fuel s out g delta cmdv status :
  StandardLoop w principal keytab fuel s out g delta ->
  In (Popen cmdv status) delta ->
  status <> 0%Z ->
  out = Exited status.
Proof.
  intros Hl.
  induction Hl as [s | n s v g1 d1 m out g delta Hway Hfreq Hpause Hl IH
                  | n s out1 g1 d1 Hway Hnot | n s v g1 d1 e Hway Hpause];
    intros Hin Hne.
  - destruct Hin.
  - apply in_app_or in Hin. destruct Hin as [Hin | Hin]; [|now apply IH].
    apply in_app_or in Hin. destruct Hin as [Hin | [H | []]]; [|discriminate H].
    destruct (renewal_tool_failed w _ _ _ _ _ _ _ _ _ Hway Hin Hne) as (H & _).
    discriminate H.
  - destruct (renewal_tool_failed w _ _ _ _ _ _ _ _ _ Hway Hin Hne) as (-> & _).
    reflexivity.
  - destruct (renewal_tool_failed w _ _ _ _ _ _ _ _ _ Hway Hin Hne) as (H & _).
    discriminate H.
Qed.

End Loop.

Section LoopCounts.

Variable w : World.

Lemma standard_loop_keeps principal keytab fuel s out g delta b :
  StandardLoop w principal keytab fuel s out g delta ->
  NEED_KRB181_WORKAROUND s = Some b -> g = Some b.
Proof.
  intros Hl.
  induction Hl as [s | n s v g1 d1 m out g delta Hway Hfreq Hpause Hl IH
                  | n s out1 g1 d1 Hway Hnot | n s v g1 d1 e Hway Hpause];
    intros Hb.
  - exact Hb.
  - apply IH. rewrite need_advance. exact (renewal_keeps w _ _ _ _ _ _ _ _ Hway Hb).
  - exact (renewal_keeps w _ _ _ _ _ _ _ _ Hway Hb).
  - exact (renewal_keeps w _ _ _ _ _ _ _ _ Hway Hb).
Qed.

(** While the loop is running, the workaround has been run in every round
    or in none. *)
Lemma standard_loop_calls principal keytab fuel s g delta :
  StandardLoop w principal keytab fuel s Running g delta ->
  count is_call delta = match g with Some true => fuel | _ => 0 end.
Proof.
  intros Hl. remember Running as out eqn:Hout.
  induction Hl as [s | n s v g1 d1 m out g delta Hway Hfreq Hpause Hl IH
                  | n s out1 g1 d1 Hway Hnot | n s v g1 d1 e Hway Hpause].
  - unfold count. now destruct (NEED_KRB181_WORKAROUND s) as [[|]|].
  - specialize (IH Hout).
    pose proof (renewal_calls w _ _ _ _ _ _ _ Hway) as Hc.
    destruct (proj2 (renewal_outcome w _ _ _ _ _ _ _ Hway) eq_refl v eq_refl)
      as (_ & Hg & Hok).
    rewrite Hok in Hc.
    destruct g1 as [b|]; [|now contradiction Hg].
    rewrite (standard_loop_keeps _ _ _ _ _ _ _ b Hl (need_advance _ _ _)) in IH |- *.
    rewrite !count_app, Hc, IH.
    assert (Hs : count is_call [Sleep (inject_Z m)] = 0) by reflexivity.
    rewrite Hs. destruct b; lia.
  - destruct out1; try discriminate Hout. now contradiction (proj1 (renewal_shape w _ _ _ _ _ _ _ Hway)).
  - discriminate Hout.
Qed.

End LoopCounts.

(* ================================================================== *)
(** ** Further properties of [run] *)

(** X7: in one call of [run], in either mode and however long the loop
    goes on, the ticket cache is opened at most once, and not at all when
    the global is set already. *)
Theorem run_reads_cache_at_most_once (w : World) (fuel : nat)
        (principal : option string) (keytab : string) (mode : KerberosMode)
        (s : Process) :
  count is_open (since (history s) (history (snd (run w fuel principal keytab mode s))))
  <= match NEED_KRB181_WORKAROUND s with None => 1 | Some _ => 0 end.
Proof.
  destruct (run_way w principal keytab mode fuel s) as (out & g & delta & Hrun & Hway).
  rewrite Hrun. cbn [snd]. rewrite since_advance.
  destruct Hway as [mode fuel s | c k fuel s out g delta Hren | c k fuel s out g delta Hl].
  - unfold count. simpl. lia.
  - pose proof (renewal_opens w _ _ _ _ _ _ _ Hren) as Ho.
    unfold count in *. cbn [filter is_open]. rewrite Ho.
    unfold started. rewrite need_advance.
    destruct (existsb reinit_succeeded delta), (NEED_KRB181_WORKAROUND s); lia.
  - pose proof (standard_loop_opens w _ _ _ _ _ _ _ Hl) as Ho.
    unfold started in Ho. rewrite need_advance in Ho.
    unfold count in *. cbn [filter is_open]. exact Ho.
Qed.

(** X8: [run] ends the process with status 0 exactly when there is no
    keytab; with a keytab every exit of the process carries the status,
    other than 0, of a child process that failed. *)
Theorem run_exit_zero_iff_no_keytab (w : World) (fuel : nat)
        (principal : option string) (keytab : string) (mode : KerberosMode)
        (s : Process) :
  fst (run w fuel principal keytab mode s) = Exited 0%Z <-> keytab = "".
Proof.
  destruct (run_way w principal keytab mode fuel s) as (out & g & delta & Hrun & Hway).
  rewrite Hrun. cbn [fst].
  destruct Hway as [mode fuel s | c k fuel s out g delta Hren | c k fuel s out g delta Hl].
  - split; reflexivity.
  - split; [|discriminate]. intros Hout. exfalso.
    destruct out; try discriminate Hout. injection Hout as ->.
    exact (proj2 (proj1 (renewal_outcome w _ _ _ _ _ _ _ Hren) 0%Z eq_refl) eq_refl).
  - split; [|discriminate]. intros Hout. exfalso.
    exact (standard_loop_exit w _ _ _ _ _ _ _ Hl 0%Z Hout eq_refl).
Qed.

(** X9: in the standard mode a [kinit] from the keytab that exits with a
    status [S] other than 0, in whatever round, ends the process with
    [sys.exit(S)]. *)
Theorem run_standard_exits_on_failure (w : World) (fuel : nat)
        (principal : option string) (keytab : string) (s s' : Process)
        (out : Outcome unit) (cmdv : list string) (status : Z) :
  run w fuel principal keytab STANDARD s = (out, s') ->
  In (Popen cmdv status) (since (history s) (history s')) ->
  status <> 0%Z ->
  out = Exited status.
Proof.
  intros Hrun Hin Hne.
  destruct (run_way w principal keytab STANDARD fuel s)
    as (out' & g & delta & Hrun' & Hway).
  rewrite Hrun in Hrun'. injection Hrun' as -> ->.
  rewrite since_advance in Hin.
  inversion Hway as [mode' fuel' s0 | | c k fuel' s0 out0 g0 delta0 Hl]; subst.
  - destruct Hin as [H | []]. discriminate H.
  - destruct Hin as [H | Hin]; [discriminate H|].
    exact (standard_loop_tool_failed w _ _ _ _ _ _ _ _ _ Hl Hin Hne).
Qed.


Lemma run_standard_exits_on_failure_witness :
  fst second_round_fails = Exited 7%Z.
Proof.
  apply (run_standard_exits_on_failure second_round_fails_world 5 None "airflow.keytab"
           initial_process (snd second_round_fails) (fst second_round_fails)
           ["kinit"; "-f"; "-A"; "-r"; "3600m"; "-k"; "-t"; "airflow.keytab"; "-c";
            "/tmp/airflow_krb5_ccache"; "airflow/node1@EXAMPLE.COM"] 7%Z).
  - reflexivity.
  - vm_compute. do 6 right. left. reflexivity.
  - discriminate.
Defined.

(** X10: with a negative [reinit_frequency] the standard mode does one
    renewal and, when that returns, fails on the pause: [time.sleep] refuses
    the negative length, as negative or, below -9223372036 seconds, as one
    it cannot convert, and the error leaves [run]. *)
Theorem run_standard_negative_interval (w : World) (fuel : nat)
        (principal : option string) (c : ascii) (k : string) (s s1 : Process)
        (v n : Z) :
  conf_getint (conf w) "kerberos" "reinit_frequency" = Some n ->
  (n < 0)%Z ->
  renew_from_kt w principal (String c k) true (started s STANDARD) = (Returned v, s1) ->
  run w (S fuel) principal (String c k) STANDARD s
  = (Raised (if (-9223372036 <=? n)%Z
             then ValueError "sleep length must be non-negative"
             else OverflowError), s1).
Proof.
  intros Hn Hneg Hrun. rewrite run_with_keytab.
  cbn [forever]. unfold bind at 1.
  change (standard_round w principal (String c k) (started s STANDARD))
    with ((renew_from_kt w principal (String c k) true ;; pause w)
            (started s STANDARD)).
  unfold bind at 1.
  rewrite Hrun. now rewrite (pause_refused w n s1 Hn Hneg).
Qed.

Lemma run_standard_negative_interval_witness :
  run hasty_world 4 None "airflow.keytab" STANDARD initial_process
  = (Raised (ValueError "sleep length must be non-negative"), snd hasty_first_renewal).
Proof.
  apply (run_standard_negative_interval hasty_world 3 None "a" "irflow.keytab"
           initial_process (snd hasty_first_renewal) 0%Z (-5)%Z).
  - reflexivity.
  - reflexivity.
  - reflexivity.
Defined.

(** The lengths [time.sleep] refuses and takes in the standard mode. *)
Example pause_samples :
  map (fun n : Z =>
         fst (time_sleep marked_world (inject_Z n) initial_process))
      [-9223372037; -9223372036; -5; 0; 3600; 9223372034; 9223372036;
       9223372037]%Z
  = [Raised OverflowError;
     Raised (ValueError "sleep length must be non-negative");
     Raised (ValueError "sleep length must be non-negative");
     Returned tt; Returned tt; Returned tt;
     Raised (OSError 22);
     Raised OverflowError].
Proof. reflexivity. Qed.

(** X11: while the standard mode is running, after any number of rounds,
    the workaround has been run once in every round if the global is [True]
    and in no round otherwise. *)
Theorem run_standard_workaround_every_round (w : World) (fuel : nat)
        (principal : option string) (keytab : string) (s s' : Process) :
  run w fuel principal keytab STANDARD s = (Running, s') ->
  count is_call (since (history s) (history s'))
  = match NEED_KRB181_WORKAROUND s' with Some true => fuel | _ => 0 end.
Proof.
  intros Hrun.
  destruct (run_way w principal keytab STANDARD fuel s)
    as (out' & g & delta & Hrun' & Hway).
  rewrite Hrun in Hrun'. injection Hrun' as <- ->.
  rewrite since_advance, need_advance.
  inversion Hway as [mode' fuel' s0 | | c k fuel' s0 out0 g0 delta0 Hl]; subst.
  pose proof (standard_loop_calls w _ _ _ _ _ _ Hl) as Hc.
  unfold count in *. cbn [filter is_call]. exact Hc.
Qed.


Lemma run_standard_workaround_every_round_witness :
  count is_call (since [] (history (snd three_rounds))) = 3.
Proof.
  apply (run_standard_workaround_every_round marked_world 3 None "airflow.keytab"
           initial_process (snd three_rounds)).
  reflexivity.
Defined.

(* ================================================================== *)
(** ** What a renewal logs about [kinit] *)

(** X12: the command line that a renewal logs is the one it runs: the line
    [Re-initialising kerberos from keytab] comes right before [kinit] is
    started and holds its arguments, each quoted, joined by blanks. The error
    line [Couldn't reinit from keytab] follows, with the exit status in
    decimal, exactly when [kinit] exited with a status other than 0, and
    then nothing else is done. *)
Theorem renew_from_kt_logs_what_it_runs (w : World) (principal : option string)
        (keytab : string) (exit_on_fail : bool) (s s' : Process)
        (out : Outcome Z) (cmdv : list string) (status : Z) :
  renew_from_kt w principal keytab exit_on_fail s = (out, s') ->
  In (Popen cmdv status) (since (history s) (history s')) ->
  exists rest,
    since (history s) (history s')
    = Log INFO "Re-initialising kerberos from keytab: %s"
          [Str.join " " (map (shlex_quote w) cmdv)]
        :: Popen cmdv status :: rest
    /\ (status <> 0%Z ->
        exists out_lines err_lines,
          rest = [Log ERROR reinit_error
                      [Str.of_int status;
                       Str.join (String "010" "") out_lines;
                       Str.join (String "010" "") err_lines]])
    /\ (status = 0%Z -> forall args, ~ In (Log ERROR reinit_error args) rest).
Proof.
  intros Hrun Hin.
  destruct (renew_from_kt_way w _ _ _ _ _ _ Hrun) as (delta & _ & Hsince & Hway).
  rewrite Hsince in Hin |- *.
  destruct Hway as [key _ | c subp _ Hne | c given out g delta _ _ Hafter].
  - destruct Hin.
  - destruct Hin as [H | [H | [H | []]]]; try discriminate H.
    injection H as <- <-.
    exists [reinit_failure_log subp]. split; [reflexivity|]. split.
    + intros _. now exists (stdout subp), (stderr subp).
    + intros H. now contradiction Hne.
  - destruct Hin as [H | [H | Hin]]; try discriminate H.
    + injection H as <- <-. exists delta. split; [reflexivity|]. split.
      * intros H. now contradiction H.
      * intros _ args Hlog.
        assert (Hdiff : reinit_error <> workaround_error) by (vm_compute; discriminate).
        destruct Hafter as [Hn | r0 Hn | Hn Hr | data Hn Hr Hm | data r0 Hn Hr Hm];
          unfold workaround_events, workaround_log, workaround_failure_log in Hlog;
          try destruct (r0 =? 0)%Z;
          repeat (destruct Hlog as [H | Hlog];
                  [first [discriminate H | injection H as H _; now contradiction Hdiff]|]);
          destruct Hlog.
    + destruct (after_reinit_counts w _ _ _ _ _ _ _ _ Hafter) as [Hp _].
      apply (count_zero_not_in _ _ _ Hp) in Hin. discriminate Hin.
Qed.

Lemma renew_from_kt_logs_what_it_runs_witness :
  exists rest,
    since [] (history (snd failed_reinit))
    = Log INFO "Re-initialising kerberos from keytab: %s"
          [Str.join " "
             (map (shlex_quote (demo_world (fun _ => 1%Z) None))
                  ["kinit"; "-f"; "-A"; "-r"; "3600m"; "-k"; "-t"; "airflow.keytab";
                   "-c"; "/tmp/airflow_krb5_ccache"; "airflow/node1@EXAMPLE.COM"])]
        :: Popen ["kinit"; "-f"; "-A"; "-r"; "3600m"; "-k"; "-t"; "airflow.keytab";
                  "-c"; "/tmp/airflow_krb5_ccache"; "airflow/node1@EXAMPLE.COM"] 1%Z
        :: rest
    /\ (1%Z <> 0%Z ->
        exists out_lines err_lines,
          rest = [Log ERROR reinit_error
                      [Str.of_int 1;
                       Str.join (String "010" "") out_lines;
                       Str.join (String "010" "") err_lines]])
    /\ (1%Z = 0%Z -> forall args, ~ In (Log ERROR reinit_error args) rest).
Proof.
  apply (renew_from_kt_logs_what_it_runs
           (demo_world (fun _ => 1%Z) None) None "airflow.keytab" true
           initial_process (snd failed_reinit) (fst failed_reinit)).
  - reflexivity.
  - vm_compute. right. left. reflexivity.
Defined.
